(** * Lifecycle controller of the node process: pkg/cli/start.go

    This development embeds the two halves of the drain protocol found in
    [pkg/cli/start.go]:

    - [runStart], the start-up / shut-down orchestrator.  It is concurrent
      code (the main flow, the background start-up goroutine, the drain
      goroutine and a ticker), so it is embedded as an executable step
      function over an explicit state: every goroutine has a program
      counter, every shared variable and channel is a field, and an event
      names which goroutine (or which part of the environment) moves next.
    - [checkNodeRunning], [doShutdown] and [runQuit], the client side, in
      state-passing style over an abstract [AdminClient]. *)

From Stdlib Require Import ZArith List String Bool Lia.
Import ListNotations.
Open Scope string_scope.
Open Scope Z_scope.

(** ** Go values shared by both halves *)

(** [log.Severity] values that the file uses. *)
Inductive Severity := Severity_INFO | Severity_ERROR.

(** Go [error] values.  [nil] is [None] of [option error]. *)
Inductive error :=
| io_EOF                                     (* io.EOF *)
| extErr (msg : string)                      (* an error made outside this file *)
| ListenError (addr : string) (msg : string) (* server.ListenError{Addr: addr} *)
| errNew (msg : string)                      (* errors.New, errors.Errorf *)
| errWrap (cause : error) (msg : string)     (* errors.Wrap on a non-nil error *)
| cliError (exitCode : Z) (severity : Severity) (cause : error)
| errTryHardShutdown (e : error).            (* type errTryHardShutdown struct{ error } *)

(** [errors.Wrap(err, msg)]: nil stays nil. *)
Definition errors_Wrap (err : option error) (msg : string) : option error :=
  match err with
  | None => None
  | Some e => Some (errWrap e msg)
  end.

(** [err.Error()]. *)
Fixpoint Error (e : error) : string :=
  match e with
  | io_EOF => "EOF"
  | extErr msg => msg
  | ListenError _ msg => msg
  | errNew msg => msg
  | errWrap cause msg => msg ++ ": " ++ Error cause
  | cliError _ _ cause => Error cause
  | errTryHardShutdown e => Error e
  end.

(** The type assertion [err.(errTryHardShutdown)]: it looks at the dynamic
    type of the value only, not through wrappers. *)
Definition is_errTryHardShutdown (e : error) : bool :=
  match e with
  | errTryHardShutdown _ => true
  | _ => false
  end.

(** [serverpb.DrainMode] is an int32 enumeration. *)
Definition DrainMode := Z.

(** [time.Duration] counts nanoseconds. *)
Definition time_Second : Z := 1000000000.
Definition time_Minute : Z := 60 * time_Second.

(** The three signals registered with [signal.Notify]. *)
Inductive Signal := SIGINT | SIGQUIT | SIGTERM.

(** [int(sig.(syscall.Signal))]. *)
Definition signum (sig : Signal) : Z :=
  match sig with
  | SIGINT => 2
  | SIGQUIT => 3
  | SIGTERM => 15
  end.

(** [sig == os.Interrupt]; [os.Interrupt] is [syscall.SIGINT]. *)
Definition is_Interrupt (sig : Signal) : bool :=
  match sig with
  | SIGINT => true
  | _ => false
  end.

(** ** The orchestrator: [runStart] *)

Module Orchestrator.

(** What [runStart] reads from other packages. *)
Record Config := {
  GracefulDrainModes : list DrainMode;  (* server.GracefulDrainModes *)
  Signal_String : Signal -> string;     (* (syscall.Signal).String *)
  cfg_Addr : string;                    (* serverCfg.Addr *)
  cfg_HTTPAddr : string;                (* serverCfg.HTTPAddr *)
  ServerPort_Name : string;             (* cliflags.ServerPort.Name *)
  ServerHTTPPort_Name : string          (* cliflags.ServerHTTPPort.Name *)
}.

(** How the goroutines are cut into steps.  A step is one access to what
    the goroutines share (a channel, the stopper, the two flags of
    [serverStatusMu]) together with the local code around it.  A section
    between [Lock] and [Unlock] holds no blocking call and is one step;
    what follows the [Unlock] is a step of its own when it touches shared
    state again ([close(stopWithoutDrain)], [s.Drain], [s.Start]).  A
    select case is a step that is enabled only when its channel is ready;
    when several are ready any of them may be taken, as in Go.  Logging
    other than to [os.Stdout], tracing spans and the deferred flushes
    have no part in the state.  The environment is free: signals may be
    delivered at any time (also before [signal.Notify], where the model
    keeps them), the stopper may be stopped from outside at any time, and
    time advances by any amount between two steps. *)

(** The stopper, seen through its two channels: [ShouldStop()] is closed
    from [Stopping] on, [IsStopped()] is closed in [Stopped]. *)
Inductive StopperState := Running | Stopping | Stopped.

(** Program counters.  The main flow of [runStart]: *)
Inductive MainPC :=
| M_Setup                    (* lines 508-547 *)
| M_Select1                  (* blocked in the select of line 686 *)
| M_WaitStopped              (* blocked in <-stopper.IsStopped(), line 694 *)
| M_Signalled                (* first signal taken, about to run lines 741-758 *)
| M_Select2 (armed : Z)      (* blocked in the select of line 761; the timer
                                was armed at time [armed] *)
| M_Ret (r : option error).  (* returned r *)

(** The start-up goroutine of line 562. *)
Inductive BgPC :=
| B_None | B_InitNode | B_NewServer | B_CheckDraining | B_Start
| B_SetStarted | B_Report | B_Done.

(** The drain goroutine of line 719. *)
Inductive DrainPC :=
| D_None | D_Lock | D_Close | D_Drain | D_Stop | D_Done.

(** The ticker goroutine of line 745. *)
Inductive TickerPC := T_None | T_Run | T_Done.

Record State := {
  now : Z;                        (* wall clock, nanoseconds *)
  signalCh : option Signal;       (* make(chan os.Signal, 1) *)
  errChan : option error;         (* make(chan error, 1) *)
  started : bool;                 (* serverStatusMu.started *)
  draining : bool;                (* serverStatusMu.draining *)
  stopper : StopperState;
  stopWithoutDrain : bool;        (* true once the channel is closed *)
  returnErr : option error;
  mpc : MainPC;
  bpc : BgPC;
  dpc : DrainPC;
  tpc : TickerPC;
  startCalls : nat;                     (* calls of s.Start so far *)
  drainCalls : list (list DrainMode);   (* arguments of the s.Drain calls so far *)
  stdout : list string                  (* lines printed to os.Stdout *)
}.

Definition set_now v st := {| now := v; signalCh := signalCh st; errChan := errChan st; started := started st; draining := draining st; stopper := stopper st; stopWithoutDrain := stopWithoutDrain st; returnErr := returnErr st; mpc := mpc st; bpc := bpc st; dpc := dpc st; tpc := tpc st; startCalls := startCalls st; drainCalls := drainCalls st; stdout := stdout st |}.
Definition set_signalCh v st := {| now := now st; signalCh := v; errChan := errChan st; started := started st; draining := draining st; stopper := stopper st; stopWithoutDrain := stopWithoutDrain st; returnErr := returnErr st; mpc := mpc st; bpc := bpc st; dpc := dpc st; tpc := tpc st; startCalls := startCalls st; drainCalls := drainCalls st; stdout := stdout st |}.
Definition set_errChan v st := {| now := now st; signalCh := signalCh st; errChan := v; started := started st; draining := draining st; stopper := stopper st; stopWithoutDrain := stopWithoutDrain st; returnErr := returnErr st; mpc := mpc st; bpc := bpc st; dpc := dpc st; tpc := tpc st; startCalls := startCalls st; drainCalls := drainCalls st; stdout := stdout st |}.
Definition set_started v st := {| now := now st; signalCh := signalCh st; errChan := errChan st; started := v; draining := draining st; stopper := stopper st; stopWithoutDrain := stopWithoutDrain st; returnErr := returnErr st; mpc := mpc st; bpc := bpc st; dpc := dpc st; tpc := tpc st; startCalls := startCalls st; drainCalls := drainCalls st; stdout := stdout st |}.
Definition set_draining v st := {| now := now st; signalCh := signalCh st; errChan := errChan st; started := started st; draining := v; stopper := stopper st; stopWithoutDrain := stopWithoutDrain st; returnErr := returnErr st; mpc := mpc st; bpc := bpc st; dpc := dpc st; tpc := tpc st; startCalls := startCalls st; drainCalls := drainCalls st; stdout := stdout st |}.
Definition set_stopper v st := {| now := now st; signalCh := signalCh st; errChan := errChan st; started := started st; draining := draining st; stopper := v; stopWithoutDrain := stopWithoutDrain st; returnErr := returnErr st; mpc := mpc st; bpc := bpc st; dpc := dpc st; tpc := tpc st; startCalls := startCalls st; drainCalls := drainCalls st; stdout := stdout st |}.
Definition set_stopWithoutDrain v st := {| now := now st; signalCh := signalCh st; errChan := errChan st; started := started st; draining := draining st; stopper := stopper st; stopWithoutDrain := v; returnErr := returnErr st; mpc := mpc st; bpc := bpc st; dpc := dpc st; tpc := tpc st; startCalls := startCalls st; drainCalls := drainCalls st; stdout := stdout st |}.
Definition set_returnErr v st := {| now := now st; signalCh := signalCh st; errChan := errChan st; started := started st; draining := draining st; stopper := stopper st; stopWithoutDrain := stopWithoutDrain st; returnErr := v; mpc := mpc st; bpc := bpc st; dpc := dpc st; tpc := tpc st; startCalls := startCalls st; drainCalls := drainCalls st; stdout := stdout st |}.
Definition set_mpc v st := {| now := now st; signalCh := signalCh st; errChan := errChan st; started := started st; draining := draining st; stopper := stopper st; stopWithoutDrain := stopWithoutDrain st; returnErr := returnErr st; mpc := v; bpc := bpc st; dpc := dpc st; tpc := tpc st; startCalls := startCalls st; drainCalls := drainCalls st; stdout := stdout st |}.
Definition set_bpc v st := {| now := now st; signalCh := signalCh st; errChan := errChan st; started := started st; draining := draining st; stopper := stopper st; stopWithoutDrain := stopWithoutDrain st; returnErr := returnErr st; mpc := mpc st; bpc := v; dpc := dpc st; tpc := tpc st; startCalls := startCalls st; drainCalls := drainCalls st; stdout := stdout st |}.
Definition set_dpc v st := {| now := now st; signalCh := signalCh st; errChan := errChan st; started := started st; draining := draining st; stopper := stopper st; stopWithoutDrain := stopWithoutDrain st; returnErr := returnErr st; mpc := mpc st; bpc := bpc st; dpc := v; tpc := tpc st; startCalls := startCalls st; drainCalls := drainCalls st; stdout := stdout st |}.
Definition set_tpc v st := {| now := now st; signalCh := signalCh st; errChan := errChan st; started := started st; draining := draining st; stopper := stopper st; stopWithoutDrain := stopWithoutDrain st; returnErr := returnErr st; mpc := mpc st; bpc := bpc st; dpc := dpc st; tpc := v; startCalls := startCalls st; drainCalls := drainCalls st; stdout := stdout st |}.
Definition set_startCalls v st := {| now := now st; signalCh := signalCh st; errChan := errChan st; started := started st; draining := draining st; stopper := stopper st; stopWithoutDrain := stopWithoutDrain st; returnErr := returnErr st; mpc := mpc st; bpc := bpc st; dpc := dpc st; tpc := tpc st; startCalls := v; drainCalls := drainCalls st; stdout := stdout st |}.
Definition set_drainCalls v st := {| now := now st; signalCh := signalCh st; errChan := errChan st; started := started st; draining := draining st; stopper := stopper st; stopWithoutDrain := stopWithoutDrain st; returnErr := returnErr st; mpc := mpc st; bpc := bpc st; dpc := dpc st; tpc := tpc st; startCalls := startCalls st; drainCalls := v; stdout := stdout st |}.
Definition set_stdout v st := {| now := now st; signalCh := signalCh st; errChan := errChan st; started := started st; draining := draining st; stopper := stopper st; stopWithoutDrain := stopWithoutDrain st; returnErr := returnErr st; mpc := mpc st; bpc := bpc st; dpc := dpc st; tpc := tpc st; startCalls := startCalls st; drainCalls := drainCalls st; stdout := v |}.

(** [fmt.Fprintln(os.Stdout, msg)]. *)
Definition println (msg : string) (st : State) : State :=
  set_stdout (stdout st ++ [msg])%list st.

(** The state in which [runStart] is entered. *)
Definition init : State :=
  {| now := 0; signalCh := None; errChan := None;
     started := false; draining := false;
     stopper := Running; stopWithoutDrain := false;
     returnErr := None;
     mpc := M_Setup; bpc := B_None; dpc := D_None; tpc := T_None;
     startCalls := 0%nat; drainCalls := []; stdout := [] |}.

(** *** Events *)

(** Moves of the environment. *)
Inductive EnvEvent :=
| E_Advance (d : Z)        (* d nanoseconds pass *)
| E_Signal (sig : Signal)  (* the OS delivers sig to signalCh *)
| E_ExternalStop           (* something else calls stopper.Stop (the quit endpoint) *)
| E_Quiesced.              (* the stopper finishes stopping *)

(** Moves of the main flow; a select case is taken only when it is ready. *)
Inductive MainEvent :=
| E_SetupReturn (r : option error)  (* one of the returns of lines 508-545 *)
| E_SetupDone                       (* line 547 reached; the goroutine of line 562 starts *)
| E_RecvErrChan                     (* case err := <-errChan *)
| E_RecvShouldStop                  (* case <-stopper.ShouldStop() *)
| E_RecvIsStopped                   (* <-stopper.IsStopped(), lines 694 and 779 *)
| E_RecvSignal                      (* case sig := <-signalCh, lines 698 and 762 *)
| E_BeginWait                       (* lines 741-761 *)
| E_TimeAfter                       (* case <-time.After(time.Minute) *)
| E_RecvStopWithoutDrain.           (* case <-stopWithoutDrain *)

(** Moves of the start-up goroutine, with what the called code returned. *)
Inductive BgEvent :=
| E_InitNode (r : option error)     (* serverCfg.InitNode() *)
| E_NewServer (r : option error)    (* server.NewServer(serverCfg, stopper) *)
| E_CheckDraining                   (* lines 587-592 *)
| E_Start (r : option error)        (* s.Start(ctx) *)
| E_SetStarted                      (* lines 607-609 *)
| E_Report (r : option error) (banner : option string).  (* lines 611-670 *)

(** Moves of the drain goroutine. *)
Inductive DrainEvent :=
| E_DrainLock                       (* lines 720-723 *)
| E_DrainClose                      (* lines 728-731 *)
| E_Drain (r : option error)        (* s.Drain(server.GracefulDrainModes) *)
| E_DrainStop.                      (* stopper.Stop(context.Background()) *)

(** Moves of the ticker goroutine. *)
Inductive TickerEvent :=
| E_Tick                            (* case <-ticker.C *)
| E_TickerExit.                     (* case <-stopper.ShouldStop() or <-stopWithoutDrain *)

Inductive Event :=
| Env (e : EnvEvent)
| Main (e : MainEvent)
| Bg (e : BgEvent)
| Dr (e : DrainEvent)
| Tk (e : TickerEvent).

Definition msgDouble : string :=
  "Note: a second interrupt will skip graceful shutdown and terminate forcefully".
Definition msgDrain : string := "initiating graceful shutdown of server".
Definition hardShutdownHint : string :=
  " - node may take longer to restart & clients may need to wait for leases to expire".
Definition msgDone_drained : string := "server drained and shutdown completed".
Definition msgDone_early : string := "too early to drain; used hard shutdown instead".
Definition errorPrefix : string := "consider changing the port via --".

(** The tentative decision of lines 705-718. *)
Definition interrupted : error :=
  cliError 1 Severity_INFO (errNew "interrupted").

Definition tentative (sig : Signal) : option error :=
  if is_Interrupt sig then Some interrupted else None.

Section Steps.
Variable cfg : Config.

(** The decision of lines 769-774. *)
Definition signalDuringShutdown (sig : Signal) : error :=
  cliError (128 + signum sig) Severity_ERROR
    (errNew ("received signal '" ++ Signal_String cfg sig
             ++ "' during shutdown, initiating hard shutdown" ++ hardShutdownHint)).

(** The decision of line 777. *)
Definition timeLimitReached : error :=
  errNew ("time limit reached, initiating hard shutdown" ++ hardShutdownHint).

(** Lines 595-604: what the goroutine sends when [s.Start] fails with [err]. *)
Definition startFailure (err : error) : error :=
  let err' :=
    match err with
    | ListenError addr _ =>
        if String.eqb addr (cfg_Addr cfg)
        then errWrap err (errorPrefix ++ ServerPort_Name cfg)
        else if String.eqb addr (cfg_HTTPAddr cfg)
        then errWrap err (errorPrefix ++ ServerHTTPPort_Name cfg)
        else err
    | _ => err
    end in
  errWrap err' "cockroach server exited with error".

Definition step_env (e : EnvEvent) (st : State) : option State :=
  match e with
  | E_Advance d =>
      if 0 <=? d then Some (set_now (now st + d) st) else None
  | E_Signal sig =>
      (* signal.Notify does not block: a signal that finds the buffer full is dropped *)
      match signalCh st with
      | None => Some (set_signalCh (Some sig) st)
      | Some _ => Some st
      end
  | E_ExternalStop =>
      match stopper st with
      | Running => Some (set_stopper Stopping st)
      | _ => None
      end
  | E_Quiesced =>
      match stopper st with
      | Stopping => Some (set_stopper Stopped st)
      | _ => None
      end
  end.

Definition step_main (e : MainEvent) (st : State) : option State :=
  match mpc st, e with
  | M_Setup, E_SetupReturn r => Some (set_mpc (M_Ret r) st)
  | M_Setup, E_SetupDone => Some (set_bpc B_InitNode (set_mpc M_Select1 st))
  | M_Select1, E_RecvErrChan =>
      match errChan st with
      | Some err => Some (set_mpc (M_Ret (Some err)) (set_errChan None st))
      | None => None
      end
  | M_Select1, E_RecvShouldStop =>
      match stopper st with
      | Running => None
      | _ => Some (set_mpc M_WaitStopped st)
      end
  | M_WaitStopped, E_RecvIsStopped =>
      match stopper st with
      | Stopped => Some (set_mpc (M_Ret None) st)
      | _ => None
      end
  | M_Select1, E_RecvSignal =>
      match signalCh st with
      | Some sig =>
          let st1 := set_signalCh None st in
          let st2 :=
            if is_Interrupt sig
            then println msgDouble (set_returnErr (Some interrupted) st1)
            else st1 in
          Some (set_mpc M_Signalled (set_dpc D_Lock st2))
      | None => None
      end
  | M_Signalled, E_BeginWait =>
      Some (set_mpc (M_Select2 (now st)) (set_tpc T_Run (println msgDrain st)))
  | M_Select2 _, E_RecvSignal =>
      match signalCh st with
      | Some sig =>
          Some (set_mpc (M_Ret (Some (signalDuringShutdown sig))) (set_signalCh None st))
      | None => None
      end
  | M_Select2 armed, E_TimeAfter =>
      if armed + time_Minute <=? now st
      then Some (set_mpc (M_Ret (Some timeLimitReached)) st)
      else None
  | M_Select2 _, E_RecvIsStopped =>
      match stopper st with
      | Stopped => Some (set_mpc (M_Ret (returnErr st)) (println msgDone_drained st))
      | _ => None
      end
  | M_Select2 _, E_RecvStopWithoutDrain =>
      if stopWithoutDrain st
      then Some (set_mpc (M_Ret (returnErr st)) (println msgDone_early st))
      else None
  | _, _ => None
  end.

(** [errChan <- err] followed by the end of the goroutine. *)
Definition bg_fail (err : error) (st : State) : State :=
  set_bpc B_Done (set_errChan (Some err) st).

Definition step_bg (e : BgEvent) (st : State) : option State :=
  match bpc st, e with
  | B_InitNode, E_InitNode None => Some (set_bpc B_NewServer st)
  | B_InitNode, E_InitNode (Some err) =>
      Some (bg_fail (errWrap err "failed to initialize node") st)
  | B_NewServer, E_NewServer None => Some (set_bpc B_CheckDraining st)
  | B_NewServer, E_NewServer (Some err) =>
      Some (bg_fail (errWrap err "failed to start server") st)
  | B_CheckDraining, E_CheckDraining =>
      if draining st
      then Some (set_bpc B_Done st)
      else Some (set_bpc B_Start st)
  | B_Start, E_Start None =>
      Some (set_bpc B_SetStarted (set_startCalls (S (startCalls st)) st))
  | B_Start, E_Start (Some err) =>
      Some (bg_fail (startFailure err) (set_startCalls (S (startCalls st)) st))
  | B_SetStarted, E_SetStarted => Some (set_bpc B_Report (set_started true st))
  | B_Report, E_Report (Some err) _ => Some (bg_fail err st)
  | B_Report, E_Report None banner =>
      Some (set_bpc B_Done
              match banner with
              | Some msg => println msg st
              | None => st
              end)
  | _, _ => None
  end.

Definition step_drain (e : DrainEvent) (st : State) : option State :=
  match dpc st, e with
  | D_Lock, E_DrainLock =>
      let drainingIsSafe := started st in
      Some (set_dpc (if drainingIsSafe then D_Drain else D_Close)
              (set_draining true st))
  | D_Close, E_DrainClose =>
      Some (set_dpc D_Done (set_stopWithoutDrain true st))
  | D_Drain, E_Drain _ =>
      Some (set_dpc D_Stop
              (set_drainCalls (drainCalls st ++ [GracefulDrainModes cfg])%list st))
  | D_Stop, E_DrainStop =>
      Some (set_dpc D_Done
              match stopper st with
              | Running => set_stopper Stopping st
              | _ => st
              end)
  | _, _ => None
  end.

Definition step_ticker (e : TickerEvent) (st : State) : option State :=
  match tpc st, e with
  | T_Run, E_Tick => Some st
  | T_Run, E_TickerExit =>
      match stopper st, stopWithoutDrain st with
      | Running, false => None
      | _, _ => Some (set_tpc T_Done st)
      end
  | _, _ => None
  end.

Definition step (e : Event) (st : State) : option State :=
  match e with
  | Env e => step_env e st
  | Main e => step_main e st
  | Bg e => step_bg e st
  | Dr e => step_drain e st
  | Tk e => step_ticker e st
  end.

(** A schedule is a list of events; [run] fails when an event is not
    enabled where the schedule puts it. *)
Fixpoint run (evs : list Event) (st : State) : option State :=
  match evs with
  | [] => Some st
  | e :: evs' =>
      match step e st with
      | Some st' => run evs' st'
      | None => None
      end
  end.

End Steps.

(** *** Invariants of the runs *)

(** Until the drain goroutine has called [s.Drain] nothing has been
    drained, and it calls it at most once; the goroutine does not exist
    while the main flow is before its first select or in it. *)
Definition drain_inv (st : State) : Prop :=
  match dpc st with
  | D_None | D_Lock | D_Close | D_Drain => drainCalls st = []
  | D_Stop | D_Done => (List.length (drainCalls st) <= 1)%nat
  end /\
  match mpc st with
  | M_Setup | M_Select1 => dpc st = D_None
  | _ => True
  end.

(** Before the first signal is taken there is no tentative decision, and
    the timer of the final select is armed in the past. *)
Definition main_inv (st : State) : Prop :=
  match mpc st with
  | M_Setup | M_Select1 => returnErr st = None
  | M_Select2 armed => armed <= now st
  | _ => True
  end.

(** Once the first signal is taken the tentative decision [r] stays as
    it is until [runStart] returns. *)
Definition signalled_inv (r : option error) (st : State) : Prop :=
  match mpc st with
  | M_Signalled | M_Select2 _ => returnErr st = r
  | M_Ret _ => True
  | _ => False
  end.


(** Until the start-up goroutine has called [s.Start], nothing is started;
    the goroutine exists from the end of the set-up on. *)
Definition startup_inv (st : State) : Prop :=
  match bpc st with
  | B_None | B_InitNode | B_NewServer | B_CheckDraining | B_Start =>
      startCalls st = 0%nat /\ started st = false
  | _ => True
  end /\
  (mpc st = M_Setup -> bpc st = B_None).

(** After the start-up goroutine has returned without starting the
    server, the server stays unstarted. *)
Definition unstarted_inv (st : State) : Prop :=
  bpc st = B_Done /\ startCalls st = 0%nat /\ started st = false /\
  mpc st <> M_Setup.

(** After the drain goroutine has read [started] as false, it only closes
    [stopWithoutDrain]. *)
Definition undrained_inv (st : State) : Prop :=
  drainCalls st = [] /\
  (dpc st = D_Close \/ (dpc st = D_Done /\ stopWithoutDrain st = true)) /\
  mpc st <> M_Setup /\ mpc st <> M_Select1.

End Orchestrator.

(** ** The drain client: [checkNodeRunning], [doShutdown], [runQuit] *)

Module DrainClient.

(** [serverpb.DrainRequest] and [serverpb.DrainResponse]. *)
Record DrainRequest := { On : list Z; Shutdown : bool }.
Record DrainResponse := { resp_On : list Z }.

(** A response stream as successive [stream.Recv()] calls see it: the
    responses in order, then the error that ends it ([io.EOF] for a clean
    end). *)
Record Stream := { responses : list DrainResponse; terminal : error }.

(** What [c.Drain(ctx, req)] returns: an error, or a stream. *)
Inductive DrainCall :=
| CallFails (err : error)
| CallAccepted (stream : Stream).

(** [serverpb.AdminClient], restricted to the one method the file calls.
    The node on the other side has a state of its own. *)
Class AdminClient (C : Type) := Drain : C -> DrainRequest -> DrainCall * C.

(** The connection as the client code uses it, with a record of every
    request sent and every warning logged. *)
Record Conn (C : Type) := {
  client : C;
  sent : list DrainRequest;
  warnings : list string
}.
Arguments client {C} _.
Arguments sent {C} _.
Arguments warnings {C} _.

(** The no-op request of [checkNodeRunning]. *)
Definition probeRequest : DrainRequest := {| On := []; Shutdown := false |}.

(** The request [doShutdown] sends after the probe. *)
Definition shutdownRequest (onModes : list Z) : DrainRequest :=
  {| On := onModes; Shutdown := true |}.

Definition is_EOF (e : error) : bool :=
  match e with
  | io_EOF => true
  | _ => false
  end.

(** [for { if _, err := stream.Recv(); err != nil { ... } }]: the loop
    reads responses until [Recv] returns an error, and its body then sees
    that error. *)
Fixpoint recvUntilError (rs : list DrainResponse) (terminal : error) : error :=
  match rs with
  | [] => terminal
  | _ :: rs' => recvUntilError rs' terminal
  end.

(** The race of [runQuit]'s select between the goroutine that runs
    [doShutdown] and [time.After(time.Minute)], and what follows it.  The
    main flow does not touch the client while it waits, so until then
    the goroutine runs alone.  When the timer fires the goroutine is not
    stopped: it goes on using the same client [c] while the main flow
    runs the hard shutdown.  What the two share is the client, which
    they reach through [c.Drain] only; an interleaving is therefore
    given by how many of its [c.Drain] calls the goroutine makes before
    each [c.Drain] call of the main flow. *)
Record Race := {
  arrival : option Z;          (* nanoseconds after the select begins at which
                                  the goroutine sends on errChan; None: it
                                  never does *)
  timer_wins_tie : bool;       (* which ready case Go picks when both are ready *)
  calls_before_expiry : nat;   (* c.Drain calls the goroutine has made when the
                                  timer fires *)
  calls_before_probe : nat;    (* those it makes from then until the probe of
                                  the hard shutdown *)
  calls_before_request : nat   (* those it makes between that probe and the
                                  request of the hard shutdown *)
}.

(** What [runQuit] gets from its callees other than [doShutdown].  Of
    [usageAndError] and [runDecommissionNodeImpl], which are not in this
    file, the model keeps the error returned: the output of [runQuit]
    below is what its own [fmt.Println] and [fmt.Printf] statements
    print, and the requests recorded on the connection are the [Drain]
    requests. *)
Record QuitInput := {
  args : list string;
  usageError : error;                  (* usageAndError(cmd) *)
  getAdminClient : option error;       (* the err of getAdminClient() *)
  serverDecommission : bool;           (* quitCtx.serverDecommission *)
  runDecommissionNodeImpl : option error
}.

(** The case the select of line 1068 takes. *)
Inductive SelectCase := RecvErrChan | TimeAfter.

Definition selectCase (race : Race) : SelectCase :=
  match arrival race with
  | None => TimeAfter
  | Some t =>
      if t <? time_Minute then RecvErrChan
      else if time_Minute <? t then TimeAfter
      else if timer_wins_tie race then TimeAfter else RecvErrChan
  end.

Section Client.
Context {C : Type} `{AdminClient C}.
Variable IsClosedConnection : error -> bool.        (* grpcutil.IsClosedConnection *)
Variable GracefulDrainModes : list DrainMode.       (* server.GracefulDrainModes *)

(** [c.Drain(ctx, req)] on the connection. *)
Definition call (req : DrainRequest) (k : Conn C) : DrainCall * Conn C :=
  let (r, c') := Drain (client k) req in
  (r, {| client := c'; sent := (sent k ++ [req])%list; warnings := warnings k |}).

(** [log.Warningf(ctx, ...)]. *)
Definition warn (msg : string) (k : Conn C) : Conn C :=
  {| client := client k; sent := sent k; warnings := (warnings k ++ [msg])%list |}.

Definition checkNodeRunning (k : Conn C) : option error * Conn C :=
  let (r, k1) := call probeRequest k in
  match r with
  | CallFails err =>
      (Some (errWrap err "Failed to connect to the node: error sending drain request"), k1)
  | CallAccepted stream =>
      let err := recvUntilError (responses stream) (terminal stream) in
      if is_EOF err
      then (None, k1)
      else (None, warn ("unexpected error from no-op Drain request: " ++ Error err) k1)
  end.

Definition doShutdown (onModes : list Z) (k : Conn C) : option error * Conn C :=
  match checkNodeRunning k with
  | (Some err, k1) => (Some err, k1)
  | (None, k1) =>
      let (r, k2) := call (shutdownRequest onModes) k1 in
      match r with
      | CallFails err =>
          if IsClosedConnection err
          then (None, k2)
          else (Some (errWrap err "Error sending drain request"), k2)
      | CallAccepted stream =>
          let err := recvUntilError (responses stream) (terminal stream) in
          if IsClosedConnection err
          then (None, k2)
          else (Some (errTryHardShutdown err), k2)
      end
  end.

(** [int32(m)] for a [serverpb.DrainMode], itself an int32. *)
Definition int32_of_DrainMode (m : DrainMode) : Z := m.

(** The deferred function of lines 1041-1045. *)
Definition deferred_ok (err : option error) (out : list string) : list string :=
  match err with
  | None => (out ++ ["ok"])%list
  | Some _ => out
  end.

(** Lines 1009-1031: the second [c.Drain] call of [doShutdown] and the
    reading of its stream. *)
Definition drainRequest (onModes : list Z) (k : Conn C) : option error * Conn C :=
  let (r, k2) := call (shutdownRequest onModes) k in
  match r with
  | CallFails err =>
      if IsClosedConnection err
      then (None, k2)
      else (Some (errWrap err "Error sending drain request"), k2)
  | CallAccepted stream =>
      let err := recvUntilError (responses stream) (terminal stream) in
      if IsClosedConnection err
      then (None, k2)
      else (Some (errTryHardShutdown err), k2)
  end.

(** A run of [doShutdown] that shares the client with another one: where
    it stands between its [c.Drain] calls. *)
Inductive ShutdownRun :=
| AtProbe (onModes : list Z)      (* about to run checkNodeRunning *)
| AtDrain (onModes : list Z)      (* about to send the drain request *)
| Returned (r : option error).

(** The next [c.Drain] call of the run, with the code up to the one after
    it. *)
Definition shutdown_step (t : ShutdownRun) (k : Conn C) : ShutdownRun * Conn C :=
  match t with
  | AtProbe onModes =>
      match checkNodeRunning k with
      | (Some err, k1) => (Returned (Some err), k1)
      | (None, k1) => (AtDrain onModes, k1)
      end
  | AtDrain onModes =>
      let (r, k2) := drainRequest onModes k in (Returned r, k2)
  | Returned r => (Returned r, k)
  end.

Fixpoint shutdown_steps (n : nat) (t : ShutdownRun) (k : Conn C) : ShutdownRun * Conn C :=
  match n with
  | O => (t, k)
  | S n' => let (t', k') := shutdown_step t k in shutdown_steps n' t' k'
  end.

(** Line 1083. *)
Definition hardShutdown (out : list string) (k : Conn C)
  : option error * list string * Conn C :=
  let (r, k') := doShutdown [] k in
  let err := errors_Wrap r "hard shutdown failed" in
  (err, deferred_ok err out, k').

(** Line 1083 when the timer has fired: the goroutine, which stands at
    [goroutine], makes [calls_before_probe] of its calls before the probe
    of the hard shutdown and [calls_before_request] between that probe
    and the request without modes. *)
Definition hardShutdownRacing (out : list string) (race : Race)
    (goroutine : ShutdownRun) (k : Conn C) : option error * list string * Conn C :=
  let finish (r : option error) (k' : Conn C) :=
    let err := errors_Wrap r "hard shutdown failed" in
    (err, deferred_ok err out, k') in
  let (g1, k1) := shutdown_steps (calls_before_probe race) goroutine k in
  match checkNodeRunning k1 with
  | (Some err, k2) => finish (Some err) k2
  | (None, k2) =>
      let (g2, k3) := shutdown_steps (calls_before_request race) g1 k2 in
      let (r, k4) := drainRequest [] k3 in
      finish r k4
  end.

(** The [c.Drain] calls the goroutine has made when the timer case is
    taken: all of them when it has delivered its result by then. *)
Definition callsAtExpiry (race : Race) : nat :=
  match arrival race with
  | Some t => if t <=? time_Minute then 2%nat else calls_before_expiry race
  | None => calls_before_expiry race
  end.

Definition runQuit (inp : QuitInput) (race : Race) (k : Conn C)
  : option error * list string * Conn C :=
  match args inp with
  | _ :: _ => (Some (usageError inp), [], k)   (* no line of runQuit's own *)
  | [] =>
  let onModes := map int32_of_DrainMode GracefulDrainModes in
  match getAdminClient inp with
  | Some err => (Some err, [], k)
  | None =>
  match (if serverDecommission inp then runDecommissionNodeImpl inp else None) with
  | Some err => (Some err, [], k)              (* no Drain request so far *)
  | None =>
      (* the goroutine of line 1065, left alone *)
      let (r, k1) := doShutdown onModes k in
      match selectCase race with
      | RecvErrChan =>
          match r with
          | Some err =>
              if is_errTryHardShutdown err
              then hardShutdown
                     ["graceful shutdown failed: " ++ Error err
                      ++ "; proceeding with hard shutdown"] k1
              else (Some err, [], k1)
          | None => (None, deferred_ok None [], k1)
          end
      | TimeAfter =>
          let (g, k0) := shutdown_steps (callsAtExpiry race) (AtProbe onModes) k in
          hardShutdownRacing ["timed out; proceeding with hard shutdown"] race g k0
      end
  end end end.

End Client.

End DrainClient.

(** ** Concrete inputs used to exercise the definitions *)

Module Samples.
Import Orchestrator DrainClient.

(** DrainMode_CLIENT then DrainMode_LEASES. *)
Definition modes : list DrainMode := [0; 1].

Definition cfg : Config :=
  {| GracefulDrainModes := modes;
     Signal_String := fun sig =>
       match sig with
       | SIGINT => "interrupt"
       | SIGQUIT => "quit"
       | SIGTERM => "terminated"
       end;
     cfg_Addr := ":26257";
     cfg_HTTPAddr := ":8080";
     ServerPort_Name := "port";
     ServerHTTPPort_Name := "http-port" |}.

(** A node that answers the successive [Drain] calls from a script, and
    refuses the connection once the script is used up. *)
#[export] Instance scripted : AdminClient (list DrainCall) :=
  fun c _ =>
    match c with
    | [] => (CallFails (extErr "connection refused"), [])
    | r :: c' => (r, c')
    end.

Definition connect (script : list DrainCall) : Conn (list DrainCall) :=
  {| client := script; sent := []; warnings := [] |}.

(** An error is a closed connection when it is [io.EOF] or says so. *)
Definition closed (e : error) : bool :=
  match e with
  | io_EOF => true
  | extErr msg => String.eqb msg "use of closed network connection"
  | _ => false
  end.

Definition ack : DrainResponse := {| resp_On := [] |}.

(** The server comes up and a signal is delivered. *)
Definition up_and_signalled (sig : Signal) : list Event :=
  [Main E_SetupDone; Bg (E_InitNode None); Bg (E_NewServer None);
   Bg E_CheckDraining; Bg (E_Start None); Bg E_SetStarted;
   Env (E_Signal sig)].

(** After the signal is taken: the server is drained and stopped. *)
Definition drained : list Event :=
  [Main E_BeginWait; Dr E_DrainLock; Dr (E_Drain None); Dr E_DrainStop;
   Env E_Quiesced].

Definition graceful (sig : Signal) : list Event :=
  up_and_signalled sig ++ [Main E_RecvSignal] ++ drained.

(** A signal is delivered while [s.Start] is still running: [started] is
    not set yet. *)
Definition signal_while_starting : list Event :=
  [Main E_SetupDone; Bg (E_InitNode None); Bg (E_NewServer None);
   Bg E_CheckDraining; Env (E_Signal SIGTERM)].

(** [s.Start] then returns and [started] is set before the drain goroutine
    reaches its lock. *)
Definition started_before_lock : list Event :=
  [Bg (E_Start None); Bg E_SetStarted; Main E_BeginWait;
   Dr E_DrainLock; Dr (E_Drain None)].

(** The signal is taken before the server exists. *)
Definition early : list Event :=
  [Main E_SetupDone; Bg (E_InitNode None);
   Env (E_Signal SIGTERM); Main E_RecvSignal; Main E_BeginWait].

(** The start-up goroutine has read [draining] as false and is about to
    call [s.Start]; the drain goroutine then sets [draining]. *)
Definition draining_set_before_start : list Event :=
  [Main E_SetupDone; Bg (E_InitNode None); Bg (E_NewServer None);
   Bg E_CheckDraining; Env (E_Signal SIGTERM); Main E_RecvSignal;
   Dr E_DrainLock].

(** The signal is taken before the start-up goroutine reaches its check,
    and the drain goroutine sets [draining] first. *)
Definition draining_set_before_check : list Event :=
  [Main E_SetupDone; Bg (E_InitNode None); Bg (E_NewServer None);
   Env (E_Signal SIGTERM); Main E_RecvSignal; Dr E_DrainLock].

(** A call that is accepted and whose stream gives one response and then
    ends with [e]. *)
Definition ends_with (e : error) : DrainCall :=
  CallAccepted {| responses := [ack]; terminal := e |}.

(** [cockroach quit] without arguments and without --decommission. *)
Definition quit_input : QuitInput :=
  {| args := []; usageError := errNew "usage";
     getAdminClient := None;
     serverDecommission := false; runDecommissionNodeImpl := None |}.



End Samples.

(** ** Profile files: [gcProfiles] and the loop of [initCPUProfile] *)

Module Profiles.

(** Two's-complement wrap-around of an int64 (and of an int). *)
Definition int64 (z : Z) : Z := (z + 2 ^ 63) mod 2 ^ 64 - 2 ^ 63.

(** What the code reads of an [os.FileInfo]. *)
Record FileInfo := {
  Name : string;
  Size : Z;            (* int64 *)
  IsRegular : bool     (* f.Mode().IsRegular() *)
}.

(** The file is counted by the loop of [gcProfiles]: lines 107-112. *)
Definition counted (prefix : string) (f : FileInfo) : bool :=
  IsRegular f && String.prefix prefix (Name f).

(** The loop of lines 105-125 from [files[i]] downwards: [newest_first]
    is [files[i], files[i-1], ..., files[0]], [sum] and [found] are the
    variables of the same names.  The result lists the files handed to
    [os.Remove], in the order of the calls. *)
Fixpoint gcLoop (prefix : string) (maxSize : Z) (newest_first : list FileInfo)
    (sum found : Z) : list FileInfo :=
  match newest_first with
  | [] => []
  | f :: older =>
      if negb (IsRegular f) then gcLoop prefix maxSize older sum found
      else if negb (String.prefix prefix (Name f))
      then gcLoop prefix maxSize older sum found
      else
        let found' := int64 (found + 1) in
        let sum' := int64 (sum + Size f) in
        if found' =? 1 then gcLoop prefix maxSize older sum' found'
        else if sum' <=? maxSize then gcLoop prefix maxSize older sum' found'
        else f :: gcLoop prefix maxSize older sum' found'
  end.

(** The files [gcProfiles] hands to [os.Remove], given what
    [ioutil.ReadDir(dir)] returned (the entries sorted by file name). *)
Definition gcVictims (readDir : list FileInfo + error) (prefix : string)
    (maxSize : Z) : list FileInfo :=
  match readDir with
  | inr _ => []
  | inl files => gcLoop prefix maxSize (rev files) 0 0
  end.

Section Paths.
Variable filepath_Join : string -> string -> string.   (* filepath.Join *)

(** The arguments of the [os.Remove] calls of [gcProfiles]. *)
Definition gcProfiles (readDir : list FileInfo + error) (dir prefix : string)
    (maxSize : Z) : list string :=
  map (fun f => filepath_Join dir (Name f)) (gcVictims readDir prefix maxSize).

End Paths.

(** Sum of the sizes, in the integers. *)
Fixpoint totalSize (fs : list FileInfo) : Z :=
  match fs with
  | [] => 0
  | f :: fs' => Size f + totalSize fs'
  end.

(** The goroutine of [initCPUProfile], lines 205-250.  File handles are
    numbered as [os.Create] returns them. *)
Record CPUProfiler := {
  currentProfile : option nat;   (* var currentProfile *os.File *)
  profiling : bool;              (* a profile started by this goroutine is running *)
  opened : list nat;             (* handles created and not closed *)
  created : nat;                 (* number of files created so far *)
  gcRuns : nat;                  (* calls of gcProfiles *)
  doubleStarts : nat             (* StartCPUProfile calls made while profiling *)
}.

Definition cpu_init : CPUProfiler :=
  {| currentProfile := None; profiling := false; opened := [];
     created := 0; gcRuns := 0; doubleStarts := 0 |}.

(** What the system calls of one iteration return. *)
Record Outcome := {
  create_ok : bool;   (* os.Create succeeded *)
  start_ok : bool     (* pprof.StartCPUProfile succeeded *)
}.

Definition close (f : nat) (fs : list nat) : list nat :=
  filter (fun g => negb (Nat.eqb g f)) fs.

(** One pass through the body of the loop, lines 222-246. *)
Definition iteration (o : Outcome) (p : CPUProfiler) : CPUProfiler :=
  if create_ok o then
    let f := created p in
    let opened1 := (opened p ++ [f])%list in
    (* lines 232-237 *)
    let '(cur, prof, opened2, gcs) :=
      match currentProfile p with
      | Some c => (None, false, close c opened1, S (gcRuns p))
      | None => (None, profiling p, opened1, gcRuns p)
      end in
    let doubles := if prof then S (doubleStarts p) else doubleStarts p in
    (* lines 240-245 *)
    if start_ok o then
      {| currentProfile := Some f; profiling := true; opened := opened2;
         created := S (created p); gcRuns := gcs; doubleStarts := doubles |}
    else
      {| currentProfile := cur; profiling := prof; opened := close f opened2;
         created := S (created p); gcRuns := gcs; doubleStarts := doubles |}
  else p.

(** The deferred function of lines 214-219. *)
Definition cpu_deferred (p : CPUProfiler) : CPUProfiler :=
  match currentProfile p with
  | Some c =>
      {| currentProfile := currentProfile p; profiling := false;
         opened := close c (opened p); created := created p;
         gcRuns := gcRuns p; doubleStarts := doubleStarts p |}
  | None => p
  end.

Definition iterations (os : list Outcome) (p : CPUProfiler) : CPUProfiler :=
  fold_left (fun p o => iteration o p) os p.

(** The goroutine of [initCPUProfile] holds at most the file of the
    running profile. *)
Definition cpu_inv (p : CPUProfiler) : Prop :=
  match currentProfile p with
  | Some c => profiling p = true /\ opened p = [c] /\ (c < created p)%nat
  | None => profiling p = false /\ opened p = []
  end /\
  doubleStarts p = 0%nat.

End Profiles.

(** ** More invariants of the runs of [runStart] *)

Module Lifecycle.
Import Orchestrator.

Section Inv.
Variable cfg : Config.

(** How far the start-up goroutine is fixes [started] and the calls of
    [s.Start]; it has sent an error only when it is done. *)
Definition background_inv (st : State) : Prop :=
  match bpc st with
  | B_None | B_InitNode | B_NewServer | B_CheckDraining | B_Start =>
      startCalls st = 0%nat /\ started st = false /\ errChan st = None
  | B_SetStarted => startCalls st = 1%nat /\ started st = false /\ errChan st = None
  | B_Report => startCalls st = 1%nat /\ started st = true /\ errChan st = None
  | B_Done => started st = true -> startCalls st = 1%nat
  end /\
  (mpc st = M_Setup -> bpc st = B_None).

(** How far the drain goroutine is fixes what has been drained and
    whether [stopWithoutDrain] is closed. *)
Definition draining_inv (st : State) : Prop :=
  match dpc st with
  | D_None | D_Lock | D_Close => drainCalls st = [] /\ stopWithoutDrain st = false
  | D_Drain =>
      drainCalls st = [] /\ stopWithoutDrain st = false /\ started st = true
  | D_Stop =>
      drainCalls st = [GracefulDrainModes cfg] /\ stopWithoutDrain st = false /\
      started st = true
  | D_Done =>
      (drainCalls st = [] /\ stopWithoutDrain st = true) \/
      (drainCalls st = [GracefulDrainModes cfg] /\ stopWithoutDrain st = false /\
       started st = true)
  end /\
  match mpc st with
  | M_Setup | M_Select1 => dpc st = D_None
  | _ => True
  end.

(** The main flow has left the first select without spawning the drain
    goroutine. *)
Definition undrained_exit_inv (st : State) : Prop :=
  mpc st <> M_Setup /\ mpc st <> M_Select1 /\
  dpc st = D_None /\ drainCalls st = [] /\ stopWithoutDrain st = false.

(** The main flow has taken the case of the stopper being stopped from
    outside. *)
Definition external_stop_inv (st : State) : Prop :=
  (mpc st = M_WaitStopped \/ (mpc st = M_Ret None /\ stopper st = Stopped)) /\
  stopper st <> Running.

(** After the first signal [sig] the main flow returns one of three
    decisions. *)
Definition decision_inv (sig : Signal) (st : State) : Prop :=
  match mpc st with
  | M_Signalled | M_Select2 _ => returnErr st = tentative sig
  | M_Ret r =>
      r = tentative sig \/
      (exists sig', r = Some (signalDuringShutdown cfg sig')) \/
      r = Some timeLimitReached
  | _ => False
  end.

End Inv.

End Lifecycle.

(** ** Sizes given as bytes or as a percentage *)

From Stdlib Require DecimalString.

Module SizeFlags.

(** [math.MaxInt64]. *)
Definition MaxInt64 : Z := 2 ^ 63 - 1.

(** [(total * int64(percent)) / 100] on int64: the product wraps around,
    the quotient is rounded towards zero. *)
Definition percentOf (total percent : Z) : Z :=
  Z.quot (Profiles.int64 (total * percent)) 100.

(** [type percentResolverFunc func(percent int) (int64, error)]. *)
Definition percentResolverFunc := Z -> Z * option error.

(** [memoryPercentResolver], given what [server.GetTotalMemory] returns. *)
Definition memoryPercentResolver (GetTotalMemory : Z * option error)
  : percentResolverFunc :=
  fun percent =>
    match GetTotalMemory with
    | (_, Some err) => (0, Some err)
    | (sizeBytes, None) => (percentOf sizeBytes percent, None)
    end.

Section Disk.
Variable humanize_IBytes : Z -> string.       (* humanize.IBytes *)
Variable humanizeutil_IBytes : Z -> string.   (* humanizeutil.IBytes *)

(** [diskPercentResolverFactory], given what [fileSystemUsage.Get(dir)]
    returns and the [Total] (a uint64) it has filled in. *)
Definition diskPercentResolverFactory (Get : option error) (Total : Z)
  : option percentResolverFunc * option error :=
  match Get with
  | Some err => (None, Some err)
  | None =>
      if MaxInt64 <? Total
      then (None,
            Some (errNew ("unsupported disk size " ++ humanize_IBytes Total
                          ++ ", max supported size is "
                          ++ humanizeutil_IBytes MaxInt64)))
      else
        let deviceCapacity := Profiles.int64 Total in
        (Some (fun percent => (percentOf deviceCapacity percent, None)), None)
  end.

End Disk.

(** [strings.HasSuffix]. *)
Definition HasSuffix (s suffix : string) : bool :=
  (String.length suffix <=? String.length s)%nat &&
  String.eqb
    (substring (String.length s - String.length suffix) (String.length suffix) s)
    suffix.

(** [fmt.Sprint] of an int64. *)
Definition Sprint_int64 (z : Z) : string :=
  DecimalString.NilZero.string_of_int (Z.to_int z).

Section Flag.
(** [humanizeutil.BytesValue] is used through its constructor and its
    [Set] method only; [Var] stands for [*int64]. *)
Variables Var BV : Type.
Variable NewBytesValue : Var -> BV.
Variable bval_Set : string -> BV -> option error * BV.
Variable strconv_Atoi : string -> Z * option error.
Variable new_int64 : Var.                      (* new(int64) *)

Record bytesOrPercentageValue := {
  val : Var;
  bval : BV;
  origVal : string;
  percentResolver : option percentResolverFunc
}.

Definition newBytesOrPercentageValue (v : option Var)
    (percentResolver : option percentResolverFunc) : bytesOrPercentageValue :=
  let v := match v with None => new_int64 | Some v => v end in
  {| val := v; bval := NewBytesValue v; origVal := "";
     percentResolver := percentResolver |}.

(** [b.bval.Set(s)]. *)
Definition bvalSet (s : string) (b : bytesOrPercentageValue)
  : option error * bytesOrPercentageValue :=
  let (err, bv) := bval_Set s (bval b) in
  (err, {| val := val b; bval := bv; origVal := origVal b;
           percentResolver := percentResolver b |}).

Definition Set_ (s : string) (b : bytesOrPercentageValue)
  : option error * bytesOrPercentageValue :=
  let b := {| val := val b; bval := bval b; origVal := s;
              percentResolver := percentResolver b |} in
  if HasSuffix s "%" then
    match strconv_Atoi (substring 0 (String.length s - 1) s) with
    | (_, Some err) => (Some err, b)
    | (percent, None) =>
        if (percent <? 0) || (99 <? percent)
        then (Some (errNew ("percentage " ++ s ++ " out of range 0% - 99%")), b)
        else
          match percentResolver b with
          | None => (None, b)
          | Some resolve =>
              match resolve percent with
              | (_, Some err) => (Some err, b)
              | (absVal, None) => bvalSet (Sprint_int64 absVal) b
              end
          end
    end
  else bvalSet s b.

Definition Resolve (v : Var) (percentResolver : option percentResolverFunc)
    (b : bytesOrPercentageValue) : option error * bytesOrPercentageValue :=
  if String.eqb (origVal b) "" then (None, b)
  else
    Set_ (origVal b)
      {| val := v; bval := NewBytesValue v; origVal := origVal b;
         percentResolver := percentResolver |}.

End Flag.

End SizeFlags.

(** ** The default log directory *)

Module LogDir.

(** What the code reads of a [base.StoreSpec]. *)
Record StoreSpec := { InMemory : bool; Path : string }.

Definition onDisk (spec : StoreSpec) : bool := negb (InMemory spec).

Section Loop.
Variable filepath_Join : string -> string -> string.   (* filepath.Join *)

(** The loop of lines 825-834 from the store [spec] on, with [newDir] as
    the loop has left it so far; the result is [newDir] and
    [ambiguousLogDirs] after the loop. *)
Fixpoint logDirLoop (specs : list StoreSpec) (newDir : string) : string * bool :=
  match specs with
  | [] => (newDir, false)
  | spec :: rest =>
      if InMemory spec then logDirLoop rest newDir
      else if negb (String.eqb newDir "") then (newDir, true)
      else logDirLoop rest (filepath_Join (Path spec) "logs")
  end.

(** Lines 824-834. *)
Definition defaultLogDir (specs : list StoreSpec) : string * bool :=
  logDirLoop specs "".

End Loop.

End LogDir.

(** ** More concrete inputs *)

Module MoreSamples.
Import Orchestrator DrainClient Samples.

(** A directory listing, sorted by name: three memory profiles of 40, 50
    and 30 bytes, a CPU profile and a subdirectory. *)
Definition listing : list Profiles.FileInfo :=
  [ {| Profiles.Name := "cpuprof.2017-10-01T10_00_00.000";
       Profiles.Size := 70; Profiles.IsRegular := true |};
    {| Profiles.Name := "memprof.2017-10-01T10_00_00.000";
       Profiles.Size := 40; Profiles.IsRegular := true |};
    {| Profiles.Name := "memprof.2017-10-01T11_00_00.000";
       Profiles.Size := 50; Profiles.IsRegular := true |};
    {| Profiles.Name := "memprof.2017-10-01T12_00_00.000";
       Profiles.Size := 30; Profiles.IsRegular := true |};
    {| Profiles.Name := "memprof.old";
       Profiles.Size := 0; Profiles.IsRegular := false |} ].

Definition oldest_memprof : Profiles.FileInfo :=
  {| Profiles.Name := "memprof.2017-10-01T10_00_00.000";
     Profiles.Size := 40; Profiles.IsRegular := true |}.

Definition join (dir name : string) : string := dir ++ "/" ++ name.

(** Start-up fails: the node cannot be initialised. *)
Definition init_fails : list Event :=
  [Main E_SetupDone; Bg (E_InitNode (Some (extErr "no stores")))].

(** The server comes up and is then stopped through the quit endpoint. *)
Definition stopped_from_outside : list Event :=
  [Main E_SetupDone; Bg (E_InitNode None); Bg (E_NewServer None);
   Bg E_CheckDraining; Bg (E_Start None); Bg E_SetStarted;
   Bg (E_Report None None); Env E_ExternalStop].

(** The server is about to be started. *)
Definition before_start : list Event :=
  [Main E_SetupDone; Bg (E_InitNode None); Bg (E_NewServer None);
   Bg E_CheckDraining].

Definition port_in_use : error :=
  ListenError ":26257" "listen tcp :26257: bind: address already in use".

(** The result of the graceful attempt arrives after five seconds. *)
Definition in_time : Race :=
  {| arrival := Some (5 * time_Second); timer_wins_tie := false;
     calls_before_expiry := 0; calls_before_probe := 0;
     calls_before_request := 0 |}.

(** A [BytesValue] that holds its variable's value and whether it was
    set, and that takes decimal numbers only. *)
Definition parse (s : string) : Z * option error :=
  match DecimalString.NilZero.int_of_string s with
  | Some d => (Z.of_int d, None)
  | None => (0, Some (extErr "invalid syntax"))
  end.

Definition plain_Set (s : string) (bv : Z * bool) : option error * (Z * bool) :=
  match parse s with
  | (v, None) => (None, (v, true))
  | (_, Some err) => (Some err, bv)
  end.

(** Two resolvers for a device of 1000 bytes that differ outside 0-99. *)
Definition of_1000 : SizeFlags.percentResolverFunc :=
  fun percent => (SizeFlags.percentOf 1000 percent, None).

Definition of_1000_checked : SizeFlags.percentResolverFunc :=
  fun percent =>
    if (percent <? 0) || (99 <? percent)
    then (0, Some (extErr "bad percentage"))
    else (SizeFlags.percentOf 1000 percent, None).

Definition unset_flag : SizeFlags.bytesOrPercentageValue unit (Z * bool) :=
  SizeFlags.newBytesOrPercentageValue unit (Z * bool) (fun _ => (0, false)) tt
    None None.

Definition stores : list LogDir.StoreSpec :=
  [ {| LogDir.InMemory := true; LogDir.Path := "" |};
    {| LogDir.InMemory := false; LogDir.Path := "/mnt/ssd1" |};
    {| LogDir.InMemory := false; LogDir.Path := "/mnt/ssd2" |} ].

End MoreSamples.

(** * Properties of the orchestrator *)

Section OrchestratorFacts.
Import Orchestrator.
Variable cfg : Config.

Lemma run_app evs1 evs2 st :
  run cfg (evs1 ++ evs2) st =
  match run cfg evs1 st with
  | Some st' => run cfg evs2 st'
  | None => None
  end.
Proof.
  revert st; induction evs1 as [|e evs1 IH]; intros st; simpl; [reflexivity|].
  destruct (step cfg e st); [apply IH | reflexivity].
Qed.

(** A property that every step keeps holds along every schedule. *)
Lemma run_invariant (P : State -> Prop) :
  (forall e st st', P st -> step cfg e st = Some st' -> P st') ->
  forall evs st st', P st -> run cfg evs st = Some st' -> P st'.
Proof.
  intros Hstep evs; induction evs as [|e evs IH]; intros st st' HP Hrun; simpl in Hrun.
  - injection Hrun as <-; exact HP.
  - destruct (step cfg e st) as [st1|] eqn:E; [|discriminate].
    eapply IH; [|exact Hrun]. eapply Hstep; eauto.
Qed.

End OrchestratorFacts.

(** Case analysis on an enabled step. *)
Ltac step_inv H :=
  unfold Orchestrator.step, Orchestrator.step_env, Orchestrator.step_main,
    Orchestrator.step_bg, Orchestrator.step_drain, Orchestrator.step_ticker,
    Orchestrator.bg_fail, Orchestrator.println in H;
  repeat match type of H with
  | context [match ?x with _ => _ end] => destruct x eqn:?
  end;
  try discriminate H;
  injection H as <-;
  cbn in *.

(** Replace the program counters and shared flags by what the case
    analysis found them to be. *)
Ltac use_eqs :=
  repeat match goal with
  | E : Orchestrator.mpc _ = _ |- _ => rewrite E in *; clear E
  | E : Orchestrator.bpc _ = _ |- _ => rewrite E in *; clear E
  | E : Orchestrator.dpc _ = _ |- _ => rewrite E in *; clear E
  | E : Orchestrator.tpc _ = _ |- _ => rewrite E in *; clear E
  | E : Orchestrator.drainCalls _ = _ |- _ => rewrite E in *; clear E
  | E : Orchestrator.started _ = _ |- _ => rewrite E in *; clear E
  | E : Orchestrator.draining _ = _ |- _ => rewrite E in *; clear E
  | E : Orchestrator.stopper _ = _ |- _ => rewrite E in *; clear E
  | E : Orchestrator.stopWithoutDrain _ = _ |- _ => rewrite E in *; clear E
  end.

Section DrainCount.
Import Orchestrator.
Variable cfg : Config.

Lemma drain_inv_init : drain_inv init.
Proof. split; reflexivity. Qed.

Lemma drain_inv_step e st st' :
  drain_inv st -> step cfg e st = Some st' -> drain_inv st'.
Proof.
  intros [Hd Hm] Hs. unfold drain_inv.
  destruct e as [e|e|e|e|e]; destruct e; step_inv Hs; use_eqs;
    try (split; [assumption || (cbn; lia) || reflexivity
                | exact I || assumption || reflexivity]).
  all: destruct (mpc st); try discriminate Hm; split; cbn; trivial; lia.
Qed.

Lemma drain_inv_run evs st :
  run cfg evs init = Some st -> drain_inv st.
Proof.
  apply run_invariant with (P := drain_inv).
  - intros e s s'; apply drain_inv_step.
  - exact drain_inv_init.
Qed.

End DrainCount.

Section MainFlow.
Import Orchestrator.
Variable cfg : Config.

Lemma main_inv_step e st st' :
  main_inv st -> step cfg e st = Some st' -> main_inv st'.
Proof.
  unfold main_inv; intros Hi Hs.
  destruct e as [e|e|e|e|e]; destruct e; step_inv Hs; use_eqs;
    trivial; try lia.
  destruct (mpc st); trivial; lia.
Qed.

Lemma main_inv_run evs st :
  run cfg evs init = Some st -> main_inv st.
Proof.
  apply run_invariant with (P := main_inv).
  - intros e s s'; apply main_inv_step.
  - reflexivity.
Qed.

Lemma signalled_inv_step r e st st' :
  signalled_inv r st -> step cfg e st = Some st' -> signalled_inv r st'.
Proof.
  unfold signalled_inv; intros Hi Hs.
  destruct e as [e|e|e|e|e]; destruct e; step_inv Hs; use_eqs;
    trivial; try contradiction.
Qed.


End MainFlow.

Section StartUp.
Import Orchestrator.
Variable cfg : Config.

Lemma startup_inv_step e st st' :
  startup_inv st -> step cfg e st = Some st' -> startup_inv st'.
Proof.
  unfold startup_inv; intros [Hb Hm] Hs.
  destruct e as [e|e|e|e|e]; destruct e; step_inv Hs; use_eqs;
    try (split; [assumption || exact I | assumption || discriminate]).
  all: try (rewrite Hm in Hb by reflexivity; split; [assumption | discriminate]).
  all: try (split; [trivial | intros Hc; specialize (Hm Hc); discriminate]).
Qed.

Lemma startup_inv_run evs st :
  run cfg evs init = Some st -> startup_inv st.
Proof.
  apply run_invariant with (P := startup_inv).
  - intros e s s'; apply startup_inv_step.
  - split; [split; reflexivity | reflexivity].
Qed.

Lemma unstarted_inv_step e st st' :
  unstarted_inv st -> step cfg e st = Some st' -> unstarted_inv st'.
Proof.
  unfold unstarted_inv; intros (Hb & Hc & Hs' & Hm) Hs.
  destruct e as [e|e|e|e|e]; destruct e; step_inv Hs; use_eqs;
    try discriminate; try (repeat split; (assumption || discriminate)).
  all: congruence.
Qed.

Lemma undrained_inv_step e st st' :
  undrained_inv st -> step cfg e st = Some st' -> undrained_inv st'.
Proof.
  unfold undrained_inv; intros (Hc & Hd & Hm1 & Hm2) Hs.
  destruct e as [e|e|e|e|e]; destruct e; step_inv Hs; use_eqs;
    try congruence;
    try (repeat split; (assumption || discriminate)).
  all: try (destruct Hd as [Hd|[Hd _]]; discriminate Hd).
  all: repeat split; try discriminate; try assumption; auto.
Qed.

End StartUp.

Section OrchestratorClaims.
Import Orchestrator.
Variable cfg : Config.

(** C1.  Along every schedule of [runStart], [s.Drain] is called at most
    once; and when the final select takes a further signal, that step
    sends no drain request and does not touch the drain goroutine: it
    only makes [runStart] return the forced-exit decision. *)
Theorem at_most_one_drain evs st :
  run cfg evs init = Some st ->
  (List.length (drainCalls st) <= 1)%nat /\
  (forall armed st',
      mpc st = M_Select2 armed ->
      step cfg (Main E_RecvSignal) st = Some st' ->
      drainCalls st' = drainCalls st /\ dpc st' = dpc st /\
      exists sig, mpc st' = M_Ret (Some (signalDuringShutdown cfg sig))).
Proof.
  intros Hrun. split.
  - destruct (drain_inv_run cfg evs st Hrun) as [Hd _].
    destruct (dpc st); try exact Hd; rewrite Hd; cbn; lia.
  - intros armed st' Hm Hs. step_inv Hs; try discriminate Hm.
    repeat split; eauto.
Qed.

(** C2, as the code has it.  When the drain goroutine finds [started]
    unset at its read under the mutex, no drain request is sent on any
    continuation of the run: the goroutine only closes [stopWithoutDrain].
    Once it is closed the final select can take the early-stop case, and
    when it does it prints "too early to drain; used hard shutdown
    instead" and returns the tentative decision. *)
Theorem no_drain_when_not_started evs st st1 evs' st2 :
  run cfg evs init = Some st ->
  started st = false ->
  step cfg (Dr E_DrainLock) st = Some st1 ->
  run cfg evs' st1 = Some st2 ->
  drainCalls st2 = [] /\
  (dpc st2 = D_Close \/ (dpc st2 = D_Done /\ stopWithoutDrain st2 = true)) /\
  (forall armed,
      mpc st2 = M_Select2 armed -> dpc st2 = D_Done ->
      step cfg (Main E_RecvStopWithoutDrain) st2 =
      Some (set_mpc (M_Ret (returnErr st2)) (println msgDone_early st2))).
Proof.
  intros Hrun Hst Hs Hrun'.
  pose proof (drain_inv_run cfg evs st Hrun) as [Hd Hm].
  assert (Hu : undrained_inv st1).
  { unfold undrained_inv. step_inv Hs; use_eqs; try congruence.
    repeat split; auto; destruct (mpc st); congruence. }
  pose proof (run_invariant cfg undrained_inv (undrained_inv_step cfg)
                evs' st1 st2 Hu Hrun') as (Hc & Hdp & _ & _).
  repeat split; trivial.
  intros armed Hmp Hdone.
  destruct Hdp as [Hdp|[_ Hclosed]]; [congruence|].
  unfold step, step_main. rewrite Hmp, Hclosed. reflexivity.
Qed.

(** C3.  In the final select, a signal waiting in [signalCh] can be taken,
    and taking it makes [runStart] return exit code 128 + the signal
    number with the cause "received signal '<name>' during shutdown,
    initiating hard shutdown" followed by the hint, whatever the first
    signal and the tentative decision were, and without a further drain
    request.  While the drain is still in progress (the stopper has not
    stopped, [stopWithoutDrain] is open, the minute has not passed) this
    is the only case the select can take. *)
Theorem second_signal_forces_exit evs st armed sig :
  run cfg evs init = Some st ->
  mpc st = M_Select2 armed ->
  signalCh st = Some sig ->
  (exists st',
      step cfg (Main E_RecvSignal) st = Some st' /\
      mpc st' =
        M_Ret (Some (cliError (128 + signum sig) Severity_ERROR
                       (errNew ("received signal '" ++ Signal_String cfg sig
                                ++ "' during shutdown, initiating hard shutdown"
                                ++ hardShutdownHint)))) /\
      drainCalls st' = drainCalls st) /\
  (now st < armed + time_Minute ->
   stopper st <> Stopped ->
   stopWithoutDrain st = false ->
   forall e st', step cfg (Main e) st = Some st' -> e = E_RecvSignal).
Proof.
  intros _ Hm Hsig. split.
  - eexists. unfold step, step_main. rewrite Hm, Hsig.
    split; [reflexivity|]. split; reflexivity.
  - intros Hnow Hstop Hclosed e st' Hs.
    destruct e; step_inv Hs; use_eqs; try discriminate; try reflexivity;
      try congruence.
    injection Hm as <-. apply Z.leb_le in Heqb. lia.
Qed.

(** C4.  When the first signal [sig] has been taken and the final select
    later takes the case of the stopper having stopped, [runStart]
    returns the tentative decision of that signal unchanged: the
    [cliError] with exit code 1 and cause "interrupted" for an interrupt,
    and nil (success, exit code 0) for the other signals. *)
Theorem graceful_exit_decision evs st sig st1 evs' st2 st3 :
  run cfg evs init = Some st ->
  mpc st = M_Select1 ->
  signalCh st = Some sig ->
  step cfg (Main E_RecvSignal) st = Some st1 ->
  run cfg evs' st1 = Some st2 ->
  step cfg (Main E_RecvIsStopped) st2 = Some st3 ->
  mpc st3 =
    M_Ret (if is_Interrupt sig
           then Some (cliError 1 Severity_INFO (errNew "interrupted"))
           else None) /\
  returnErr st2 = returnErr st1 /\
  stdout st3 = (stdout st2 ++ [msgDone_drained])%list.
Proof.
  intros Hrun Hm Hsig Hs Hrun' Hs'.
  pose proof (main_inv_run cfg evs st Hrun) as Hi. unfold main_inv in Hi.
  rewrite Hm in Hi.
  assert (Hr : returnErr st1 = tentative sig /\ mpc st1 = M_Signalled).
  { unfold step, step_main in Hs. rewrite Hm, Hsig in Hs.
    injection Hs as <-. unfold tentative.
    destruct (is_Interrupt sig); cbn; auto. }
  destruct Hr as [Hr Hm1].
  assert (Hinv : signalled_inv (tentative sig) st1).
  { unfold signalled_inv. rewrite Hm1. exact Hr. }
  pose proof (run_invariant cfg _ (signalled_inv_step cfg (tentative sig))
                evs' st1 st2 Hinv Hrun') as H2.
  unfold signalled_inv in H2.
  step_inv Hs'; use_eqs; try contradiction.
  rewrite H2, Hr. repeat split; reflexivity.
Qed.


(** C9, as the code has it.  When the start-up goroutine finds [draining]
    set at its check under the mutex, it returns without calling
    [s.Start], and on every continuation of the run [s.Start] has not been
    called and [started] is not set. *)
Theorem no_start_when_draining_seen evs st st1 evs' st2 :
  run cfg evs init = Some st ->
  draining st = true ->
  step cfg (Bg E_CheckDraining) st = Some st1 ->
  run cfg evs' st1 = Some st2 ->
  bpc st1 = B_Done /\
  bpc st2 = B_Done /\ startCalls st2 = 0%nat /\ started st2 = false.
Proof.
  intros Hrun Hdr Hs Hrun'.
  pose proof (startup_inv_run cfg evs st Hrun) as [Hb Hm].
  assert (Hu : unstarted_inv st1).
  { unfold unstarted_inv. step_inv Hs; use_eqs; try congruence.
    destruct Hb as [Hc Hst]. repeat split; trivial.
    intros Hc'. specialize (Hm Hc'). discriminate. }
  pose proof (run_invariant cfg unstarted_inv (unstarted_inv_step cfg)
                evs' st1 st2 Hu Hrun') as (H1 & H2 & H3 & _).
  destruct Hu as (H0 & _). auto.
Qed.

End OrchestratorClaims.

(** * Properties of the drain client *)

Section DrainClientClaims.
Import DrainClient.
Context {C : Type} `{AdminClient C}.
Variable IsClosedConnection : error -> bool.
Variable GracefulDrainModes : list DrainMode.

(** The receive loop ends with the error that ends the stream. *)
Lemma recvUntilError_terminal rs e : recvUntilError rs e = e.
Proof. induction rs as [|r rs IH]; simpl; auto. Qed.

Lemma call_sent req (k : Conn C) :
  sent (snd (call req k)) = (sent k ++ [req])%list /\
  warnings (snd (call req k)) = warnings k /\
  fst (call req k) = fst (Drain (client k) req) /\
  client (snd (call req k)) = snd (Drain (client k) req).
Proof. unfold call. destruct (Drain (client k) req); cbn; auto. Qed.

Lemma checkNodeRunning_sent (k : Conn C) :
  sent (snd (checkNodeRunning k)) = (sent k ++ [probeRequest])%list /\
  client (snd (checkNodeRunning k)) = snd (Drain (client k) probeRequest).
Proof.
  unfold checkNodeRunning.
  pose proof (call_sent probeRequest k) as (Hs & _ & _ & Hc).
  destruct (call probeRequest k) as [r k1]; cbn in *.
  destruct r as [err|stream]; cbn; [auto|].
  destruct (is_EOF _); cbn; auto.
Qed.

(** The requests one [doShutdown] sends. *)
Lemma doShutdown_sent onModes (k : Conn C) :
  let k' := snd (doShutdown IsClosedConnection onModes k) in
  sent k' = (sent k ++ [probeRequest])%list \/
  sent k' = (sent k ++ [probeRequest; shutdownRequest onModes])%list.
Proof.
  unfold doShutdown.
  pose proof (checkNodeRunning_sent k) as [Hs _].
  destruct (checkNodeRunning k) as [[err|] k1]; cbn in *; [left; exact Hs|].
  pose proof (call_sent (shutdownRequest onModes) k1) as (Hs2 & _).
  destruct (call (shutdownRequest onModes) k1) as [r k2]; cbn in *.
  right. rewrite Hs, <- app_assoc in Hs2. cbn in Hs2.
  destruct r as [err|stream]; [|]; destruct (IsClosedConnection _); exact Hs2.
Qed.

(** C6.  When the probe has passed and the drain request is accepted,
    [doShutdown] returns nil if the error that ends the response stream
    is a closed connection, and the [errTryHardShutdown] value holding
    that error in every other case: never a plain error. *)
Theorem doShutdown_stream_end onModes (k : Conn C) s1 c1 s2 c2 :
  Drain (client k) probeRequest = (CallAccepted s1, c1) ->
  Drain c1 (shutdownRequest onModes) = (CallAccepted s2, c2) ->
  fst (doShutdown IsClosedConnection onModes k) =
    (if IsClosedConnection (terminal s2)
     then None
     else Some (errTryHardShutdown (terminal s2))).
Proof.
  intros Hp Hd. unfold doShutdown, checkNodeRunning, call.
  rewrite Hp, recvUntilError_terminal.
  destruct (is_EOF (terminal s1)); cbn; rewrite Hd, recvUntilError_terminal;
    destruct (IsClosedConnection (terminal s2)); reflexivity.
Qed.

(** C7.  [doShutdown] sends the probe request (no modes, shutdown false)
    first and the drain request, if at all, after it; when the probe call
    itself fails, [doShutdown] returns that error, wrapped, and has sent
    the probe only. *)
Theorem doShutdown_probe_first onModes (k : Conn C) :
  (let k' := snd (doShutdown IsClosedConnection onModes k) in
   sent k' = (sent k ++ [{| On := []; Shutdown := false |}])%list \/
   sent k' = (sent k ++ [{| On := []; Shutdown := false |};
                         {| On := onModes; Shutdown := true |}])%list) /\
  (forall err c',
      Drain (client k) probeRequest = (CallFails err, c') ->
      doShutdown IsClosedConnection onModes k =
        (Some (errWrap err "Failed to connect to the node: error sending drain request"),
         {| client := c';
            sent := (sent k ++ [{| On := []; Shutdown := false |}])%list;
            warnings := warnings k |})).
Proof.
  split.
  - apply doShutdown_sent.
  - intros err c' Hp. unfold doShutdown, checkNodeRunning, call.
    rewrite Hp. reflexivity.
Qed.

(** C10.  When the no-op [Drain] call is accepted, [checkNodeRunning]
    returns nil whatever error ends the response stream; an error other
    than [io.EOF] is logged as a warning and nothing else. *)
Theorem checkNodeRunning_ignores_stream_errors (k : Conn C) stream c' :
  Drain (client k) probeRequest = (CallAccepted stream, c') ->
  fst (checkNodeRunning k) = None /\
  sent (snd (checkNodeRunning k)) = (sent k ++ [probeRequest])%list /\
  warnings (snd (checkNodeRunning k)) =
    (if is_EOF (terminal stream)
     then warnings k
     else (warnings k ++ [("unexpected error from no-op Drain request: "
                           ++ Error (terminal stream))%string])%list).
Proof.
  intros Hp. unfold checkNodeRunning, call. rewrite Hp, recvUntilError_terminal.
  destruct (is_EOF (terminal stream)); cbn; auto.
Qed.

Lemma doShutdown_unfold onModes (k : Conn C) :
  doShutdown IsClosedConnection onModes k =
  match checkNodeRunning k with
  | (Some err, k1) => (Some err, k1)
  | (None, k1) => drainRequest IsClosedConnection onModes k1
  end.
Proof.
  unfold doShutdown, drainRequest.
  destruct (checkNodeRunning k) as [[err|] k1]; reflexivity.
Qed.



(** Run on its own, the goroutine is [doShutdown]. *)
Lemma shutdown_steps_doShutdown onModes (k : Conn C) :
  shutdown_steps IsClosedConnection 2 (AtProbe onModes) k =
  (Returned (fst (doShutdown IsClosedConnection onModes k)),
   snd (doShutdown IsClosedConnection onModes k)).
Proof.
  rewrite doShutdown_unfold. cbn [shutdown_steps shutdown_step].
  destruct (checkNodeRunning k) as [[err|] k1]; [reflexivity|].
  cbn [shutdown_step]. destruct (drainRequest IsClosedConnection onModes k1); reflexivity.
Qed.


End DrainClientClaims.

(** * The theorems at concrete runs *)

Section Witnesses.
Import Orchestrator DrainClient Samples.

(** A drained run followed by one more signal: one drain call. *)
Lemma at_most_one_drain_witness :
  exists st,
    run cfg (graceful SIGINT ++ [Env (E_Signal SIGINT)]) init = Some st /\
    (List.length (drainCalls st) <= 1)%nat.
Proof.
  eexists. split.
  - vm_compute. reflexivity.
  - apply (at_most_one_drain cfg (graceful SIGINT ++ [Env (E_Signal SIGINT)])).
    vm_compute. reflexivity.
Defined.

(** C2, as stated, fails.  SIGTERM is taken by the first select while
    [started] is still unset ([s.Start] has not returned); [started] is
    set before the drain goroutine reaches its lock, and the goroutine
    then calls [s.Drain]. *)
Lemma signal_before_started_can_drain :
  exists st st1 st2,
    run cfg signal_while_starting init = Some st /\
    mpc st = M_Select1 /\ started st = false /\ signalCh st = Some SIGTERM /\
    step cfg (Main E_RecvSignal) st = Some st1 /\
    run cfg started_before_lock st1 = Some st2 /\
    drainCalls st2 = [modes].
Proof.
  do 3 eexists.
  split; [vm_compute; reflexivity|].
  split; [reflexivity|]. split; [reflexivity|]. split; [reflexivity|].
  split; [vm_compute; reflexivity|].
  split; [vm_compute; reflexivity|].
  reflexivity.
Qed.

(** SIGTERM taken before the server exists: nothing is drained. *)
Lemma no_drain_when_not_started_witness :
  exists st st1 st2,
    run cfg early init = Some st /\
    step cfg (Dr E_DrainLock) st = Some st1 /\
    run cfg [Dr E_DrainClose] st1 = Some st2 /\
    drainCalls st2 = [] /\ stopWithoutDrain st2 = true.
Proof.
  do 3 eexists.
  split; [vm_compute; reflexivity|].
  split; [vm_compute; reflexivity|].
  split; [vm_compute; reflexivity|].
  split.
  - eapply (no_drain_when_not_started cfg early _ _ [Dr E_DrainClose]);
      vm_compute; reflexivity.
  - reflexivity.
Defined.

(** SIGTERM while draining after SIGINT: exit code 143. *)
Lemma second_signal_forces_exit_witness :
  exists st st',
    run cfg (up_and_signalled SIGINT
             ++ [Main E_RecvSignal; Main E_BeginWait; Env (E_Signal SIGTERM)])
      init = Some st /\
    step cfg (Main E_RecvSignal) st = Some st' /\
    mpc st' =
      M_Ret (Some (cliError 143 Severity_ERROR
         (errNew "received signal 'terminated' during shutdown, initiating hard shutdown - node may take longer to restart & clients may need to wait for leases to expire"))).
Proof.
  eexists.
  destruct (second_signal_forces_exit cfg
              (up_and_signalled SIGINT
               ++ [Main E_RecvSignal; Main E_BeginWait; Env (E_Signal SIGTERM)])
              _ 0 SIGTERM
              ltac:(vm_compute; reflexivity) eq_refl eq_refl)
    as [[st' (Hs & Hm & _)] _].
  exists st'. split; [vm_compute; reflexivity|].
  split; [exact Hs | exact Hm].
Defined.

(** An interrupt drained to the end: exit code 1, "interrupted". *)
Lemma graceful_exit_decision_witness :
  exists st st1 st2 st3,
    run cfg (up_and_signalled SIGINT) init = Some st /\
    step cfg (Main E_RecvSignal) st = Some st1 /\
    run cfg drained st1 = Some st2 /\
    step cfg (Main E_RecvIsStopped) st2 = Some st3 /\
    mpc st3 = M_Ret (Some (cliError 1 Severity_INFO (errNew "interrupted"))).
Proof.
  do 4 eexists.
  split; [vm_compute; reflexivity|].
  split; [vm_compute; reflexivity|].
  split; [vm_compute; reflexivity|].
  split; [vm_compute; reflexivity|].
  apply (graceful_exit_decision cfg (up_and_signalled SIGINT) _ SIGINT _ drained _ _
           ltac:(vm_compute; reflexivity) eq_refl eq_refl
           ltac:(vm_compute; reflexivity) ltac:(vm_compute; reflexivity)
           ltac:(vm_compute; reflexivity)).
Defined.


(** The start-up goroutine reaches its check after [draining] is set. *)
Lemma no_start_when_draining_seen_witness :
  exists st st1 st2,
    run cfg draining_set_before_check init = Some st /\
    draining st = true /\
    step cfg (Bg E_CheckDraining) st = Some st1 /\
    run cfg [Dr E_DrainClose; Main E_BeginWait] st1 = Some st2 /\
    startCalls st2 = 0%nat /\ started st2 = false.
Proof.
  do 3 eexists.
  split; [vm_compute; reflexivity|].
  split; [reflexivity|].
  split; [vm_compute; reflexivity|].
  split; [vm_compute; reflexivity|].
  apply (no_start_when_draining_seen cfg draining_set_before_check _ _
           [Dr E_DrainClose; Main E_BeginWait] _
           ltac:(vm_compute; reflexivity) eq_refl
           ltac:(vm_compute; reflexivity) ltac:(vm_compute; reflexivity)).
Defined.

(** C9, as stated, fails.  The start-up goroutine reads [draining] as
    unset; the drain goroutine then sets it and finds [started] unset;
    the start-up goroutine goes on to call [s.Start] and to set [started],
    both after [draining] was set. *)
Lemma started_set_after_draining :
  exists st st1 st2,
    run cfg draining_set_before_start init = Some st /\
    draining st = true /\ started st = false /\ startCalls st = 0%nat /\
    step cfg (Bg (E_Start None)) st = Some st1 /\
    startCalls st1 = 1%nat /\
    step cfg (Bg E_SetStarted) st1 = Some st2 /\
    draining st2 = true /\ started st2 = true.
Proof.
  do 3 eexists.
  split; [vm_compute; reflexivity|].
  split; [reflexivity|]. split; [reflexivity|]. split; [reflexivity|].
  split; [vm_compute; reflexivity|].
  split; [reflexivity|].
  split; [vm_compute; reflexivity|].
  split; reflexivity.
Qed.

(** The drain stream ends with a reset: the try-hard-shutdown value. *)
Lemma doShutdown_stream_end_witness :
  fst (doShutdown closed [0; 1]
         (connect [ends_with io_EOF; ends_with (extErr "connection reset by peer")]))
  = Some (errTryHardShutdown (extErr "connection reset by peer")).
Proof.
  apply (doShutdown_stream_end closed [0; 1]
           (connect [ends_with io_EOF; ends_with (extErr "connection reset by peer")])
           {| responses := [ack]; terminal := io_EOF |}
           [ends_with (extErr "connection reset by peer")]
           {| responses := [ack]; terminal := extErr "connection reset by peer" |}
           []
           eq_refl eq_refl).
Defined.

(** The node cannot be reached: only the probe is sent. *)
Lemma doShutdown_probe_first_witness :
  doShutdown closed [0; 1] (connect []) =
    (Some (errWrap (extErr "connection refused")
             "Failed to connect to the node: error sending drain request"),
     {| client := []; sent := [probeRequest]; warnings := [] |}).
Proof.
  apply (proj2 (doShutdown_probe_first closed [0; 1] (connect []))
           (extErr "connection refused") [] eq_refl).
Defined.

(** The probe stream ends with a reset: the probe still passes. *)
Lemma checkNodeRunning_ignores_stream_errors_witness :
  fst (checkNodeRunning (connect [ends_with (extErr "connection reset by peer")]))
  = None.
Proof.
  apply (checkNodeRunning_ignores_stream_errors
           (connect [ends_with (extErr "connection reset by peer")])
           {| responses := [ack]; terminal := extErr "connection reset by peer" |}
           [] eq_refl).
Defined.


End Witnesses.

(** * Properties of the profile files *)

Section ProfileFacts.
Import Profiles.

Lemma int64_small z : - 2 ^ 63 <= z < 2 ^ 63 -> int64 z = z.
Proof. intros Hz. unfold int64. rewrite Z.mod_small; lia. Qed.

Lemma totalSize_app fs gs : totalSize (fs ++ gs) = totalSize fs + totalSize gs.
Proof. induction fs as [|f fs IH]; cbn; [reflexivity | rewrite IH; lia]. Qed.

Lemma totalSize_rev fs : totalSize (rev fs) = totalSize fs.
Proof.
  induction fs as [|f fs IH]; [reflexivity|].
  cbn [rev]. rewrite totalSize_app, IH. cbn. lia.
Qed.

Lemma filter_rev {A} (p : A -> bool) l : filter p (rev l) = rev (filter p l).
Proof.
  induction l as [|a l IH]; cbn; [reflexivity|].
  rewrite filter_app, IH. cbn. destruct (p a); cbn; [reflexivity|].
  apply app_nil_r.
Qed.

Lemma totalSize_nonneg l :
  (forall f, In f l -> 0 <= Size f) -> 0 <= totalSize l.
Proof.
  induction l as [|g l IH]; intros Hpos; cbn; [lia|].
  assert (0 <= Size g) by (apply Hpos; left; reflexivity).
  assert (0 <= totalSize l) by (apply IH; intros h Hh; apply Hpos; right; exact Hh).
  lia.
Qed.

Variable prefix : string.
Variable maxSize : Z.

(** The loop looks at the counted files only. *)
Lemma gcLoop_filter l sum found :
  gcLoop prefix maxSize l sum found =
  gcLoop prefix maxSize (filter (counted prefix) l) sum found.
Proof.
  revert sum found; induction l as [|f l IH]; intros sum found; [reflexivity|].
  cbn [filter]. unfold counted at 1.
  destruct (IsRegular f) eqn:Er; cbn [andb].
  - destruct (String.prefix prefix (Name f)) eqn:Ep.
    + cbn [gcLoop]. rewrite Er, Ep. cbn [negb].
      destruct (_ =? 1); [apply IH|]. destruct (_ <=? maxSize); [apply IH|].
      f_equal. apply IH.
    + cbn [gcLoop]. rewrite Er, Ep. cbn [negb]. apply IH.
  - cbn [gcLoop]. rewrite Er. cbn [negb]. apply IH.
Qed.

(** What is removed was listed and counted. *)
Lemma gcLoop_In l sum found v :
  In v (gcLoop prefix maxSize l sum found) -> In v l /\ counted prefix v = true.
Proof.
  revert sum found; induction l as [|f l IH]; intros sum found; cbn [gcLoop];
    [intros []|].
  destruct (IsRegular f) eqn:Er; cbn [negb].
  - destruct (String.prefix prefix (Name f)) eqn:Ep; cbn [negb].
    + destruct (_ =? 1).
      * intros Hv; apply IH in Hv; cbn; tauto.
      * destruct (_ <=? maxSize).
        -- intros Hv; apply IH in Hv; cbn; tauto.
        -- intros [<-|Hv].
           ++ split; [left; reflexivity|]. unfold counted. rewrite Er, Ep. reflexivity.
           ++ apply IH in Hv; cbn; tauto.
    + intros Hv; apply IH in Hv; cbn; tauto.
  - intros Hv; apply IH in Hv; cbn; tauto.
Qed.

(** Once the running sum is over the limit, with sizes that are not
    negative and no overflow, every further counted file is removed. *)
Lemma gcLoop_over_limit l sum found :
  (forall f, In f l -> 0 <= Size f) ->
  1 <= found -> found + Z.of_nat (List.length l) < 2 ^ 63 ->
  0 <= sum -> sum + totalSize l < 2 ^ 63 ->
  maxSize < sum ->
  filter (counted prefix) l = l ->
  gcLoop prefix maxSize l sum found = l.
Proof.
  revert sum found; induction l as [|f l IH]; intros sum found Hpos Hf Hlen Hs Hsum Hover Hall;
    [reflexivity|].
  cbn [filter] in Hall.
  destruct (counted prefix f) eqn:Ec.
  2:{ exfalso. assert (Hl : (List.length (filter (counted prefix) l) <= List.length l)%nat)
        by apply filter_length_le.
      rewrite Hall in Hl. cbn in Hl. lia. }
  injection Hall as Hall.
  unfold counted in Ec. apply andb_prop in Ec as [Er Ep].
  cbn [gcLoop]. rewrite Er, Ep. cbn [negb].
  cbn [totalSize] in Hsum.
  cbn [List.length] in Hlen.
  assert (Hsz : 0 <= Size f) by (apply Hpos; left; reflexivity).
  assert (Hpos' : forall g, In g l -> 0 <= Size g)
    by (intros g Hg; apply Hpos; right; exact Hg).
  pose proof (totalSize_nonneg l Hpos') as Htl.
  rewrite !int64_small by lia.
  destruct (found + 1 =? 1) eqn:E1; [apply Z.eqb_eq in E1; lia|].
  destruct (sum + Size f <=? maxSize) eqn:E2; [apply Z.leb_le in E2; lia|].
  f_equal. apply IH; try lia; auto.
Qed.

(** After the newest counted file, the loop keeps counted files while the
    running sum stays within the limit and removes all the others. *)
Lemma gcLoop_split l sum found :
  (forall f, In f l -> 0 <= Size f) ->
  1 <= found -> found + Z.of_nat (List.length l) < 2 ^ 63 ->
  0 <= sum -> sum + totalSize l < 2 ^ 63 ->
  filter (counted prefix) l = l ->
  exists kept,
    l = (kept ++ gcLoop prefix maxSize l sum found)%list /\
    (kept = [] \/ sum + totalSize kept <= maxSize) /\
    (forall v rest, gcLoop prefix maxSize l sum found = v :: rest ->
                    maxSize < sum + totalSize kept + Size v).
Proof.
  revert sum found; induction l as [|f l IH]; intros sum found Hpos Hf Hlen Hs Hsum Hall.
  - exists []. cbn. repeat split; auto. intros v rest Hv; discriminate.
  - cbn [filter] in Hall.
    destruct (counted prefix f) eqn:Ec.
    2:{ exfalso. assert (Hl : (List.length (filter (counted prefix) l) <= List.length l)%nat)
          by apply filter_length_le.
        rewrite Hall in Hl. cbn in Hl. lia. }
    injection Hall as Hall.
    unfold counted in Ec. apply andb_prop in Ec as [Er Ep].
    cbn [gcLoop]. rewrite Er, Ep. cbn [negb].
    cbn [totalSize] in Hsum.
    cbn [List.length] in Hlen.
    assert (Hsz : 0 <= Size f) by (apply Hpos; left; reflexivity).
    assert (Hpos' : forall g, In g l -> 0 <= Size g)
      by (intros g Hg; apply Hpos; right; exact Hg).
    pose proof (totalSize_nonneg l Hpos') as Htl.
    rewrite !int64_small by lia.
    destruct (found + 1 =? 1) eqn:E1; [apply Z.eqb_eq in E1; lia|].
    destruct (sum + Size f <=? maxSize) eqn:E2.
    + apply Z.leb_le in E2.
      destruct (IH (sum + Size f) (found + 1)) as (kept & Hk & Hfit & Hv); try lia; auto.
      exists (f :: kept). split; [cbn; f_equal; exact Hk|]. split.
      * right. cbn [totalSize].
        destruct Hfit as [->|Hfit]; [cbn; lia | lia].
      * intros v rest Hvr. specialize (Hv v rest Hvr).
        cbn [totalSize]. lia.
    + apply Z.leb_gt in E2.
      exists []. rewrite gcLoop_over_limit; try lia; auto.
      split; [reflexivity|]. split; [left; reflexivity|].
      intros v rest Hvr. injection Hvr as <- _. cbn. lia.
Qed.

(** The split of [gcLoop_split], for the whole listing. *)
Lemma gcVictims_split files :
  (forall f, In f files -> counted prefix f = true -> 0 <= Size f) ->
  totalSize (filter (counted prefix) files) < 2 ^ 63 ->
  Z.of_nat (List.length files) < 2 ^ 63 ->
  exists kept,
    filter (counted prefix) (rev files) =
      (kept ++ gcVictims (inl files) prefix maxSize)%list /\
    (forall f, In f kept -> 0 <= Size f) /\
    (forall f, In f (gcVictims (inl files) prefix maxSize) -> 0 <= Size f) /\
    ((List.length kept <= 1)%nat \/ totalSize kept <= maxSize) /\
    (filter (counted prefix) files <> [] -> kept <> []) /\
    (forall v rest, gcVictims (inl files) prefix maxSize = v :: rest ->
                    maxSize < totalSize kept + Size v).
Proof.
  intros Hpos Hsum Hlen. unfold gcVictims.
  rewrite gcLoop_filter.
  assert (Hpos' : forall f, In f (filter (counted prefix) (rev files)) -> 0 <= Size f).
  { intros f Hf. apply filter_In in Hf as [Hf Hc]. apply Hpos; [|exact Hc].
    apply in_rev. exact Hf. }
  assert (Hsum' : totalSize (filter (counted prefix) (rev files)) < 2 ^ 63).
  { rewrite filter_rev, totalSize_rev. exact Hsum. }
  assert (Hlen' : Z.of_nat (List.length (filter (counted prefix) (rev files))) < 2 ^ 63).
  { pose proof (filter_length_le (counted prefix) (rev files)) as Hl.
    rewrite length_rev in Hl. lia. }
  assert (Hall : filter (counted prefix) (filter (counted prefix) (rev files))
                 = filter (counted prefix) (rev files)).
  { apply forallb_filter_id. apply forallb_forall.
    intros f Hf. apply filter_In in Hf as [_ Hc]. exact Hc. }
  assert (Hne : filter (counted prefix) files <> [] ->
                filter (counted prefix) (rev files) <> []).
  { rewrite filter_rev. intros Hn Hr. apply Hn.
    apply (f_equal (@rev _)) in Hr. rewrite rev_involutive in Hr. exact Hr. }
  destruct (filter (counted prefix) (rev files)) as [|m ms] eqn:Ems.
  - exists []. cbn [app gcLoop].
    split; [reflexivity|]. split; [intros f []|]. split; [intros f []|].
    split; [left; cbn; lia|].
    split; [intros Hn; exfalso; apply (Hne Hn); reflexivity|].
    intros v rest Hv; discriminate.
  - cbn [filter] in Hall. destruct (counted prefix m) eqn:Ec.
    2:{ exfalso. assert (Hl : (List.length (filter (counted prefix) ms) <= List.length ms)%nat)
          by apply filter_length_le.
        rewrite Hall in Hl. cbn in Hl. lia. }
    injection Hall as Hall.
    unfold counted in Ec. apply andb_prop in Ec as [Er Ep].
    cbn [gcLoop]. rewrite Er, Ep. cbn [negb].
    cbn [totalSize] in Hsum'. cbn [List.length] in Hlen'.
    assert (Hm : 0 <= Size m) by (apply Hpos'; left; reflexivity).
    assert (Hms : forall g, In g ms -> 0 <= Size g)
      by (intros g Hg; apply Hpos'; right; exact Hg).
    pose proof (totalSize_nonneg ms Hms) as Htl.
    rewrite !int64_small by lia.
    cbn [Z.add Z.eqb Pos.eqb].
    destruct (gcLoop_split ms (Size m) 1) as (kept & Hk & Hfit & Hv); try lia; auto.
    exists (m :: kept). split; [cbn; f_equal; exact Hk|].
    split.
    { intros f [<-|Hf]; [exact Hm|]. apply Hms. rewrite Hk. apply in_or_app. left; exact Hf. }
    split.
    { intros f Hf. apply Hms. rewrite Hk. apply in_or_app. right; exact Hf. }
    split.
    { destruct Hfit as [->|Hfit]; [left; cbn; lia | right; cbn [totalSize]; lia]. }
    split; [intros _; discriminate|].
    intros v rest Hvr. specialize (Hv v rest Hvr). cbn [totalSize]. lia.
Qed.

(** X1.  Every path [gcProfiles] hands to [os.Remove] is that of a
    listed regular file whose name starts with the prefix; when the
    directory cannot be read, nothing is removed. *)
Theorem gcProfiles_only_counted (Join : string -> string -> string) readDir dir p :
  In p (gcProfiles Join readDir dir prefix maxSize) ->
  exists files f,
    readDir = inl files /\ In f files /\
    IsRegular f = true /\ String.prefix prefix (Name f) = true /\
    p = Join dir (Name f).
Proof.
  unfold gcProfiles, gcVictims. intros Hp.
  apply in_map_iff in Hp as (f & <- & Hf).
  destruct readDir as [files|err]; [|destruct Hf].
  apply gcLoop_In in Hf as [Hin Hc].
  unfold counted in Hc. apply andb_prop in Hc as [Er Ep].
  exists files, f. repeat split; auto. apply in_rev; exact Hin.
Qed.

(** X2.  The newest counted file is never removed: whatever the limit and
    the sizes, what is removed lies before it in the listing. *)
Theorem gcProfiles_keeps_newest older f newer :
  counted prefix f = true ->
  (forall g, In g newer -> counted prefix g = false) ->
  let victims := gcVictims (inl (older ++ f :: newer)%list) prefix maxSize in
  (forall v, In v victims -> In v older) /\
  (NoDup (map Name (older ++ f :: newer)) -> ~ In f victims).
Proof.
  intros Hc Hnew victims.
  assert (Hnone : filter (counted prefix) (rev newer) = []).
  { rewrite filter_rev. replace (filter (counted prefix) newer) with (@nil FileInfo);
      [reflexivity|].
    symmetry. clear - Hnew. induction newer as [|g l IH]; [reflexivity|].
    cbn [filter]. rewrite (Hnew g) by (left; reflexivity).
    apply IH. intros h Hh. apply Hnew. right; exact Hh. }
  assert (Hv : forall v, In v victims -> In v older).
  { subst victims. unfold gcVictims. intros v.
    rewrite gcLoop_filter, rev_app_distr. cbn [rev].
    rewrite !filter_app, Hnone. cbn [filter app]. rewrite Hc. cbn [app].
    unfold counted in Hc. apply andb_prop in Hc as [Er Ep].
    cbn [gcLoop]. rewrite Er, Ep. cbn [negb].
    replace (int64 (0 + 1) =? 1) with true by reflexivity.
    intros Hin. apply gcLoop_In in Hin as [Hin _].
    apply filter_In in Hin as [Hin _]. apply in_rev. exact Hin. }
  split; [exact Hv|].
  intros Hnd Hin. apply Hv in Hin.
  rewrite map_app in Hnd. cbn in Hnd. apply NoDup_remove_2 in Hnd.
  apply Hnd. apply in_or_app. left. apply in_map. exact Hin.
Qed.

(** X3.  With sizes that are not negative and sums that fit an int64, the
    counted files, newest first, split into those kept and then those
    removed: only the oldest are removed.  The kept ones are the newest
    alone or fit the limit together, and they are as many as fit: the
    newest removed file would have taken them over the limit. *)
Theorem gcProfiles_removes_oldest files :
  (forall f, In f files -> counted prefix f = true -> 0 <= Size f) ->
  totalSize (filter (counted prefix) files) < 2 ^ 63 ->
  Z.of_nat (List.length files) < 2 ^ 63 ->
  exists kept,
    filter (counted prefix) (rev files) =
      (kept ++ gcVictims (inl files) prefix maxSize)%list /\
    ((List.length kept <= 1)%nat \/ totalSize kept <= maxSize) /\
    (filter (counted prefix) files <> [] -> kept <> []) /\
    (forall v rest, gcVictims (inl files) prefix maxSize = v :: rest ->
                    maxSize < totalSize kept + Size v).
Proof.
  intros Hpos Hsum Hlen.
  destruct (gcVictims_split files Hpos Hsum Hlen) as (kept & H1 & _ & _ & H2 & H3 & H4).
  exists kept. auto.
Qed.

(** X4.  Under the same conditions, when the counted files fit the limit
    together, [gcProfiles] removes nothing. *)
Theorem gcProfiles_within_limit (Join : string -> string -> string) files dir :
  (forall f, In f files -> counted prefix f = true -> 0 <= Size f) ->
  totalSize (filter (counted prefix) files) < 2 ^ 63 ->
  Z.of_nat (List.length files) < 2 ^ 63 ->
  totalSize (filter (counted prefix) files) <= maxSize ->
  gcProfiles Join (inl files) dir prefix maxSize = [].
Proof.
  intros Hpos Hsum Hlen Hfit. unfold gcProfiles.
  destruct (gcVictims_split files Hpos Hsum Hlen)
    as (kept & Hsplit & Hk & Hvs & _ & _ & Hover).
  destruct (gcVictims (inl files) prefix maxSize) as [|v rest] eqn:Ev; [reflexivity|].
  exfalso. specialize (Hover v rest eq_refl).
  apply (f_equal totalSize) in Hsplit.
  rewrite filter_rev, totalSize_rev, totalSize_app in Hsplit. cbn [totalSize] in Hsplit.
  assert (0 <= totalSize rest).
  { apply totalSize_nonneg. intros g Hg. apply Hvs. right; exact Hg. }
  lia.
Qed.

Lemma cpu_inv_iteration o p : cpu_inv p -> cpu_inv (iteration o p).
Proof.
  unfold cpu_inv, iteration. intros [Hc Hd].
  destruct (create_ok o); [|auto].
  destruct (currentProfile p) as [c|] eqn:Ec.
  - destruct Hc as (Hp & Ho & Hlt). rewrite Ho. cbn [app].
    assert (Hne : Nat.eqb (created p) c = false) by (apply Nat.eqb_neq; lia).
    assert (Hcl : close c [c; created p] = [created p]).
    { unfold close. cbn. rewrite Nat.eqb_refl, Hne. reflexivity. }
    rewrite Hcl.
    destruct (start_ok o); cbn; repeat split; auto.
    unfold close. cbn. rewrite Nat.eqb_refl. reflexivity.
  - destruct Hc as (Hp & Ho). rewrite Ho, Hp. cbn [app].
    destruct (start_ok o); cbn; repeat split; auto.
    unfold close. cbn. rewrite Nat.eqb_refl. reflexivity.
Qed.

(** X5.  After any number of passes through the loop of [initCPUProfile],
    whatever [os.Create] and [pprof.StartCPUProfile] returned: a profile
    is running exactly when [currentProfile] is set, the files created
    and not closed are that one file or none, [StartCPUProfile] was never
    called with a profile running, and the deferred function leaves no
    file open and no profile running. *)
Theorem cpu_profile_loop_holds_one_file os :
  let p := iterations os cpu_init in
  (profiling p = true <-> currentProfile p <> None) /\
  opened p = match currentProfile p with Some c => [c] | None => [] end /\
  doubleStarts p = 0%nat /\
  opened (cpu_deferred p) = [] /\ profiling (cpu_deferred p) = false.
Proof.
  intros p.
  assert (Hinv : cpu_inv p).
  { subst p. unfold iterations.
    assert (Hgen : forall q, cpu_inv q ->
                cpu_inv (fold_left (fun p o => iteration o p) os q)).
    { induction os as [|o os' IH]; intros q Hq; [exact Hq|].
      cbn [fold_left]. apply IH. apply cpu_inv_iteration. exact Hq. }
    apply Hgen. repeat split; reflexivity. }
  destruct Hinv as [Hc Hd]. unfold cpu_deferred.
  destruct (currentProfile p) as [c|] eqn:Ec.
  - destruct Hc as (Hp & Ho & _). rewrite Hp, Ho. cbn.
    rewrite Nat.eqb_refl. cbn. repeat split; auto; congruence.
  - destruct Hc as (Hp & Ho). rewrite Hp, Ho.
    repeat split; auto; congruence.
Qed.

End ProfileFacts.

(** * More properties of the orchestrator *)

Lemma string_app_assoc (a b c : string) : ((a ++ b) ++ c = a ++ (b ++ c))%string.
Proof. induction a as [|ch a IH]; cbn; [reflexivity | rewrite IH; reflexivity]. Qed.

Section LifecycleFacts.
Import Orchestrator Lifecycle.
Variable cfg : Config.

Lemma background_inv_step e st st' :
  background_inv st -> step cfg e st = Some st' -> background_inv st'.
Proof.
  unfold background_inv; intros [Hb Hm] Hs.
  destruct e as [e|e|e|e|e]; destruct e; step_inv Hs; use_eqs.
  all: try (split; [assumption | assumption || discriminate]).
  all: try (rewrite Hm in Hb by reflexivity; split; [assumption | discriminate]).
  all: try (split; [|intros Hc; specialize (Hm Hc); discriminate]).
  all: try (destruct (bpc st) eqn:Eb; intuition congruence).
  all: try (intuition congruence).
Qed.

Lemma background_inv_run evs st :
  run cfg evs init = Some st -> background_inv st.
Proof.
  apply run_invariant with (P := background_inv).
  - intros e s s'; apply background_inv_step.
  - split; [repeat split; reflexivity | reflexivity].
Qed.

Lemma draining_inv_step e st st' :
  draining_inv cfg st -> step cfg e st = Some st' -> draining_inv cfg st'.
Proof.
  unfold draining_inv; intros [Hd Hm] Hs.
  destruct e as [e|e|e|e|e]; destruct e; step_inv Hs; use_eqs.
  all: try (split; [assumption | assumption || exact I || reflexivity]).
  all: try (destruct (mpc st); try discriminate Hm; split; [|exact I]).
  all: try (destruct (dpc st); intuition congruence).
  all: try (intuition congruence).
  all: destruct (mpc st); try discriminate Hm; (split; [|exact I]).
  all: try tauto.
  all: destruct Hd as (Hc & Hw & Hst); rewrite Hc; cbn; auto.
Qed.

Lemma draining_inv_run evs st :
  run cfg evs init = Some st -> draining_inv cfg st.
Proof.
  apply run_invariant with (P := draining_inv cfg).
  - intros e s s'; apply draining_inv_step.
  - split; [split; reflexivity | reflexivity].
Qed.

Lemma undrained_exit_inv_step e st st' :
  undrained_exit_inv st -> step cfg e st = Some st' -> undrained_exit_inv st'.
Proof.
  unfold undrained_exit_inv; intros (H1 & H2 & H3 & H4 & H5) Hs.
  destruct e as [e|e|e|e|e]; destruct e; step_inv Hs; use_eqs;
    try congruence; repeat split; try assumption; try discriminate.
Qed.

Lemma returned_step r e st st' :
  mpc st = M_Ret r -> step cfg e st = Some st' -> mpc st' = M_Ret r.
Proof.
  intros Hm Hs.
  destruct e as [e|e|e|e|e]; destruct e; step_inv Hs; use_eqs;
    try congruence; try assumption.
Qed.

Lemma external_stop_inv_step e st st' :
  external_stop_inv st -> step cfg e st = Some st' -> external_stop_inv st'.
Proof.
  unfold external_stop_inv; intros (Hm & Hs') Hs.
  destruct e as [e|e|e|e|e]; destruct e; step_inv Hs; use_eqs;
    try congruence;
    try (destruct Hm as [Hm|[Hm Hst]]; congruence);
    try (split; [assumption|congruence]).
  all: try (split; [|congruence]).
  all: try (destruct Hm as [Hm|[Hm Hst]]; [left|right]; auto; congruence).
  all: try (right; split; reflexivity).
Qed.

Lemma decision_inv_step sig e st st' :
  decision_inv cfg sig st -> step cfg e st = Some st' -> decision_inv cfg sig st'.
Proof.
  unfold decision_inv; intros Hi Hs.
  destruct e as [e|e|e|e|e]; destruct e; step_inv Hs; use_eqs;
    trivial; try contradiction; eauto.
Qed.

(** X6.  [s.Drain] is reached only with [started] set, that is after the
    one call of [s.Start] has returned without error: a server that has
    not started is never drained.  What has been drained at any point of
    a run is nothing, or [server.GracefulDrainModes] once with
    [stopWithoutDrain] still open; the early stop and the drain exclude
    each other. *)
Theorem drain_only_after_start evs st :
  run cfg evs init = Some st ->
  (dpc st = D_Drain -> started st = true /\ startCalls st = 1%nat) /\
  (drainCalls st = [] \/
   (drainCalls st = [GracefulDrainModes cfg] /\
    started st = true /\ startCalls st = 1%nat /\ stopWithoutDrain st = false)).
Proof.
  intros Hrun.
  pose proof (draining_inv_run evs st Hrun) as [Hd _].
  pose proof (background_inv_run evs st Hrun) as [Hb _].
  assert (Hone : started st = true -> startCalls st = 1%nat).
  { intros Hs. destruct (bpc st); intuition congruence. }
  split.
  - intros Hdr. rewrite Hdr in Hd. intuition.
  - destruct (dpc st); intuition.
Qed.

(** X7.  When the first select takes the error of the start-up goroutine,
    [runStart] returns that error; no drain goroutine exists then or
    later, so nothing is ever drained and [stopWithoutDrain] stays
    open. *)
Theorem startup_error_is_returned_undrained evs st st1 evs' st2 :
  run cfg evs init = Some st ->
  step cfg (Main E_RecvErrChan) st = Some st1 ->
  run cfg evs' st1 = Some st2 ->
  exists err,
    errChan st = Some err /\ bpc st = B_Done /\
    mpc st2 = M_Ret (Some err) /\
    dpc st2 = D_None /\ drainCalls st2 = [] /\ stopWithoutDrain st2 = false.
Proof.
  intros Hrun Hs Hrun'.
  pose proof (draining_inv_run evs st Hrun) as [Hd Hm].
  pose proof (background_inv_run evs st Hrun) as [Hb _].
  unfold step, step_main in Hs.
  destruct (mpc st) eqn:Em; try discriminate Hs.
  destruct (errChan st) as [err|] eqn:Ee; [|discriminate Hs].
  injection Hs as <-. exists err.
  rewrite Hm in Hd. destruct Hd as [Hc Hw].
  assert (Hdone : bpc st = B_Done).
  { destruct (bpc st); try reflexivity; intuition congruence. }
  assert (Hu : undrained_exit_inv (set_mpc (M_Ret (Some err)) (set_errChan None st))).
  { unfold undrained_exit_inv; cbn. repeat split; auto; discriminate. }
  pose proof (run_invariant cfg _ undrained_exit_inv_step evs' _ st2 Hu Hrun')
    as (_ & _ & H3 & H4 & H5).
  assert (H6 : mpc st2 = M_Ret (Some err)).
  { apply (run_invariant cfg (fun s => mpc s = M_Ret (Some err))
             (returned_step (Some err)) evs'
             (set_mpc (M_Ret (Some err)) (set_errChan None st)) st2);
      [reflexivity | exact Hrun']. }
  auto 10.
Qed.

(** X8.  When the first select takes the case of the stopper being
    stopped from outside, [runStart] waits for the stopper to have
    stopped and then returns nil; it never drains. *)
Theorem external_stop_returns_nil evs st st1 evs' st2 :
  run cfg evs init = Some st ->
  step cfg (Main E_RecvShouldStop) st = Some st1 ->
  run cfg evs' st1 = Some st2 ->
  (mpc st2 = M_WaitStopped \/ (mpc st2 = M_Ret None /\ stopper st2 = Stopped)) /\
  dpc st2 = D_None /\ drainCalls st2 = [] /\ stopWithoutDrain st2 = false.
Proof.
  intros Hrun Hs Hrun'.
  pose proof (draining_inv_run evs st Hrun) as [Hd Hm].
  unfold step, step_main in Hs.
  destruct (mpc st) eqn:Em; try discriminate Hs.
  rewrite Hm in Hd. destruct Hd as [Hc Hw].
  assert (Hst : stopper st <> Running /\ st1 = set_mpc M_WaitStopped st).
  { destruct (stopper st); try discriminate Hs; injection Hs as <-;
      split; (reflexivity || discriminate). }
  destruct Hst as [Hst ->].
  assert (He : external_stop_inv (set_mpc M_WaitStopped st)).
  { split; [left; reflexivity | exact Hst]. }
  assert (Hu : undrained_exit_inv (set_mpc M_WaitStopped st)).
  { unfold undrained_exit_inv; cbn. repeat split; auto; discriminate. }
  pose proof (run_invariant cfg _ external_stop_inv_step evs' _ st2 He Hrun') as [H1 _].
  pose proof (run_invariant cfg _ undrained_exit_inv_step evs' _ st2 Hu Hrun')
    as (_ & _ & H3 & H4 & H5).
  auto.
Qed.

(** X9.  Whenever the start-up goroutine moves, [errChan] is empty: its
    one send never finds the buffer full, and once it has sent an error
    it is done. *)
Theorem errChan_send_never_blocks evs st e st' :
  run cfg evs init = Some st ->
  step cfg (Bg e) st = Some st' ->
  errChan st = None /\ (errChan st' <> None -> bpc st' = B_Done).
Proof.
  intros Hrun Hs.
  pose proof (background_inv_run evs st Hrun) as [Hb _].
  destruct e; step_inv Hs; use_eqs; intuition congruence.
Qed.

(** X10.  When [s.Start] fails because an address is in use and the first
    select takes the error, the text of what [runStart] returns names the
    flag to change: the port flag for the server address, the HTTP port
    flag for the HTTP address, and no flag for another address. *)
Theorem listen_error_names_the_flag evs st addr msg st1 evs' st2 st3 :
  run cfg evs init = Some st ->
  step cfg (Bg (E_Start (Some (ListenError addr msg)))) st = Some st1 ->
  run cfg evs' st1 = Some st2 ->
  step cfg (Main E_RecvErrChan) st2 = Some st3 ->
  exists err,
    mpc st3 = M_Ret (Some err) /\
    Error err =
      "cockroach server exited with error: "
      ++ (if String.eqb addr (cfg_Addr cfg)
          then "consider changing the port via --" ++ ServerPort_Name cfg ++ ": "
          else if String.eqb addr (cfg_HTTPAddr cfg)
          then "consider changing the port via --" ++ ServerHTTPPort_Name cfg ++ ": "
          else "")
      ++ msg.
Proof.
  intros Hrun Hs Hrun' Hs'.
  pose proof (background_inv_run evs st Hrun) as [Hb Hm].
  set (err := startFailure cfg (ListenError addr msg)).
  set (Q := fun s : State =>
              bpc s = B_Done /\ mpc s <> M_Setup /\
              (errChan s = Some err \/ mpc s <> M_Select1)).
  assert (HQ1 : Q st1).
  { unfold Q. unfold step, step_bg in Hs.
    destruct (bpc st) eqn:Eb; try discriminate Hs. injection Hs as <-. cbn.
    repeat split; auto. intros Hc. specialize (Hm Hc). congruence. }
  assert (HQstep : forall e s s', Q s -> step cfg e s = Some s' -> Q s').
  { unfold Q. intros e s s' (H1 & H2 & H3) Hst.
    destruct e as [e|e|e|e|e]; destruct e; step_inv Hst; use_eqs;
      try congruence; repeat split; try assumption; try discriminate;
      try (right; discriminate);
      try (destruct H3 as [H3|H3]; [left; assumption | right; congruence]). }
  pose proof (run_invariant cfg Q HQstep evs' st1 st2 HQ1 Hrun') as (_ & _ & H3).
  unfold step, step_main in Hs'.
  destruct (mpc st2) eqn:Em2; try discriminate Hs'.
  destruct H3 as [H3|H3]; [|congruence]. rewrite H3 in Hs'.
  injection Hs' as <-. exists err. split; [reflexivity|].
  unfold err, startFailure.
  destruct (String.eqb addr (cfg_Addr cfg));
    [cbn; rewrite string_app_assoc; reflexivity|].
  destruct (String.eqb addr (cfg_HTTPAddr cfg));
    [cbn; rewrite string_app_assoc; reflexivity | reflexivity].
Qed.

(** X11.  Once the first signal [sig] is taken, [runStart] can only
    return the tentative decision of that signal, the forced exit for a
    further signal, or the time-limit error. *)
Theorem decisions_after_a_signal evs st sig st1 evs' st2 r :
  run cfg evs init = Some st ->
  mpc st = M_Select1 ->
  signalCh st = Some sig ->
  step cfg (Main E_RecvSignal) st = Some st1 ->
  run cfg evs' st1 = Some st2 ->
  mpc st2 = M_Ret r ->
  r = (if is_Interrupt sig
       then Some (cliError 1 Severity_INFO (errNew "interrupted")) else None) \/
  (exists sig', r = Some (signalDuringShutdown cfg sig')) \/
  r = Some (timeLimitReached).
Proof.
  intros Hrun Hm Hsig Hs Hrun' Hret.
  pose proof (main_inv_run cfg evs st Hrun) as Hi. unfold main_inv in Hi.
  rewrite Hm in Hi.
  assert (Hd : decision_inv cfg sig st1).
  { unfold step, step_main in Hs. rewrite Hm, Hsig in Hs.
    injection Hs as <-. unfold decision_inv, tentative.
    destruct (is_Interrupt sig); cbn; auto. }
  pose proof (run_invariant cfg _ (decision_inv_step sig) evs' st1 st2 Hd Hrun') as H2.
  unfold decision_inv in H2. rewrite Hret in H2. exact H2.
Qed.

End LifecycleFacts.

(** * More properties of the drain client *)

Section QuitFacts.
Import DrainClient.
Context {C : Type} `{AdminClient C}.
Variable IsClosedConnection : error -> bool.
Variable GracefulDrainModes : list DrainMode.

(** What [doShutdown] has sent when it asks for a hard shutdown. *)
Lemma doShutdown_tryhard_sent modes (k : Conn C) e :
  fst (doShutdown IsClosedConnection modes k) = Some e ->
  is_errTryHardShutdown e = true ->
  sent (snd (doShutdown IsClosedConnection modes k)) =
    (sent k ++ [probeRequest; shutdownRequest modes])%list.
Proof.
  unfold doShutdown.
  pose proof (checkNodeRunning_sent k) as [Hs _].
  unfold checkNodeRunning in *.
  destruct (call probeRequest k) as [r k1]; cbn in *.
  destruct r as [err|stream]; cbn in *.
  - intros [= <-]. discriminate.
  - assert (Hk1 : forall w, sent (warn w k1) = sent k1) by reflexivity.
    destruct (is_EOF _); cbn in *.
    all: match goal with
         | |- context [call ?q ?kk] =>
             pose proof (call_sent q kk) as (Hs2 & _);
             destruct (call q kk) as [r2 k2]
         end; cbn in *.
    all: destruct r2 as [err|stream2]; destruct (IsClosedConnection _); cbn;
      try discriminate; try (intros [= <-]; discriminate).
    all: intros _ _; rewrite Hs2, Hs, <- app_assoc; reflexivity.
Qed.

Lemma decommission_passes inp :
  (serverDecommission inp = true -> runDecommissionNodeImpl inp = None) ->
  (if serverDecommission inp then runDecommissionNodeImpl inp else None) = None.
Proof. destruct (serverDecommission inp); auto. Qed.

(** X12.  When the node cannot be reached (the probe call fails) and
    [doShutdown] reports it within the minute, [runQuit] gives up: it
    returns the connection error, prints nothing, and has sent the probe
    and nothing else, in particular no hard shutdown. *)
Theorem unreachable_node_is_not_retried inp race (k : Conn C) e c' :
  args inp = [] ->
  getAdminClient inp = None ->
  (serverDecommission inp = true -> runDecommissionNodeImpl inp = None) ->
  Drain (client k) probeRequest = (CallFails e, c') ->
  selectCase race = RecvErrChan ->
  runQuit IsClosedConnection GracefulDrainModes inp race k =
    (Some (errWrap e "Failed to connect to the node: error sending drain request"),
     [],
     {| client := c'; sent := (sent k ++ [probeRequest])%list;
        warnings := warnings k |}).
Proof.
  intros Hargs Hcli Hdec Hp Hsel.
  unfold runQuit. rewrite Hargs, Hcli, (decommission_passes inp Hdec), Hsel.
  unfold doShutdown, checkNodeRunning, call. rewrite Hp. reflexivity.
Qed.

(** X13.  When the probe passes and the call that sends the drain
    request fails, [doShutdown] returns nil for a closed connection and
    otherwise the plain error "Error sending drain request", not the
    try-hard-shutdown value; [runQuit], taking that result within the
    minute, returns it as it is with the probe and the one drain request
    sent. *)
Theorem drain_call_failure_is_final inp race (k : Conn C) s1 c1 err c2 :
  args inp = [] ->
  getAdminClient inp = None ->
  (serverDecommission inp = true -> runDecommissionNodeImpl inp = None) ->
  Drain (client k) probeRequest = (CallAccepted s1, c1) ->
  Drain c1 (shutdownRequest (map int32_of_DrainMode GracefulDrainModes)) = (CallFails err, c2) ->
  selectCase race = RecvErrChan ->
  let r := if IsClosedConnection err then None
           else Some (errWrap err "Error sending drain request") in
  fst (doShutdown IsClosedConnection (map int32_of_DrainMode GracefulDrainModes) k) = r /\
  fst (fst (runQuit IsClosedConnection GracefulDrainModes inp race k)) = r /\
  snd (fst (runQuit IsClosedConnection GracefulDrainModes inp race k)) = (if IsClosedConnection err then ["ok"] else []) /\
  sent (snd (runQuit IsClosedConnection GracefulDrainModes inp race k)) =
    (sent k ++ [probeRequest; shutdownRequest (map int32_of_DrainMode GracefulDrainModes)])%list.
Proof.
  intros Hargs Hcli Hdec Hp Hd Hsel r.
  unfold runQuit. rewrite Hargs, Hcli, (decommission_passes inp Hdec), Hsel.
  unfold doShutdown, checkNodeRunning, call. rewrite Hp.
  destruct (is_EOF _); cbn; rewrite Hd; subst r;
    destruct (IsClosedConnection err); cbn; rewrite <- app_assoc; auto.
Qed.

(** The lines [runQuit] prints before the deferred function are not
    "ok". *)
Lemma deferred_ok_spec (r : option error) out :
  ~ In "ok" out ->
  (r = None -> deferred_ok r out = (out ++ ["ok"])%list) /\
  (r <> None -> ~ In "ok" (deferred_ok r out)).
Proof.
  intros Hout. destruct r; cbn; split; intros Hr; congruence || auto.
Qed.

(** X15.  [runQuit] prints "ok", as its last line, exactly when it
    returns nil. *)
Theorem quit_prints_ok_iff_nil inp race (k : Conn C) :
  let r := fst (fst (runQuit IsClosedConnection GracefulDrainModes inp race k)) in
  let out := snd (fst (runQuit IsClosedConnection GracefulDrainModes inp race k)) in
  (r = None -> exists out', out = (out' ++ ["ok"])%list) /\
  (r <> None -> ~ In "ok" out).
Proof.
  assert (Hhard : forall line k',
             line <> "ok" ->
             let res := hardShutdown IsClosedConnection [line] k' in
             (fst (fst res) = None ->
              exists out', snd (fst res) = (out' ++ ["ok"])%list) /\
             (fst (fst res) <> None -> ~ In "ok" (snd (fst res)))).
  { intros line k' Hline res. subst res. unfold hardShutdown.
    destruct (doShutdown IsClosedConnection [] k') as [r k'']. cbn [fst snd].
    assert (Hout : ~ In "ok" [line]) by (intros [Hl|[]]; congruence).
    destruct (deferred_ok_spec (errors_Wrap r "hard shutdown failed") [line] Hout)
      as [H1 H2].
    split; [intros Hr; eexists; apply H1; exact Hr | exact H2]. }
  cbn zeta. unfold runQuit.
  destruct (args inp); [|cbn; split; [discriminate | auto]].
  destruct (getAdminClient inp); [cbn; split; [discriminate | auto]|].
  destruct (if serverDecommission inp then runDecommissionNodeImpl inp else None);
    [cbn; split; [discriminate | auto]|].
  destruct (doShutdown IsClosedConnection (map int32_of_DrainMode GracefulDrainModes) k) as [r k1].
  destruct (selectCase race).
  - destruct r as [err|].
    + destruct (is_errTryHardShutdown err).
      * apply Hhard. discriminate.
      * cbn; split; [discriminate | auto].
    + cbn. split; [intros _; exists []; reflexivity | congruence].
  - destruct (shutdown_steps IsClosedConnection (callsAtExpiry race) _ k) as [g k0].
    unfold hardShutdownRacing.
    destruct (shutdown_steps IsClosedConnection (calls_before_probe race) g k0)
      as [g1 k1'].
    assert (Hout : ~ In "ok" ["timed out; proceeding with hard shutdown"])
      by (intros [Hl|[]]; discriminate).
    destruct (checkNodeRunning k1') as [[err|] k2].
    + cbn. split; [discriminate | intros _ [Hl|[]]; discriminate].
    + destruct (shutdown_steps IsClosedConnection (calls_before_request race) g1 k2)
        as [g2 k3].
      destruct (drainRequest IsClosedConnection [] k3) as [r2 k4]. cbn [fst snd].
      destruct (deferred_ok_spec (errors_Wrap r2 "hard shutdown failed")
                  ["timed out; proceeding with hard shutdown"] Hout) as [H1 H2].
      split; [intros Hr; eexists; apply H1; exact Hr | exact H2].
Qed.

(** X16.  When [runQuit] takes the result of the graceful attempt within
    the minute, what it has sent by the time it returns is one of four
    sequences: the probe; the probe and the graceful request; these two
    and the probe of the hard shutdown; or these three and the request
    without modes.  A hard shutdown is asked for only after the graceful
    request, and at most once. *)
Theorem requests_of_a_timely_quit inp race (k : Conn C) :
  args inp = [] ->
  getAdminClient inp = None ->
  (serverDecommission inp = true -> runDecommissionNodeImpl inp = None) ->
  selectCase race = RecvErrChan ->
  let p := {| On := []; Shutdown := false |} in
  let g := {| On := (map int32_of_DrainMode GracefulDrainModes); Shutdown := true |} in
  let h := {| On := []; Shutdown := true |} in
  exists l,
    sent (snd (runQuit IsClosedConnection GracefulDrainModes inp race k)) = (sent k ++ l)%list /\
    (l = [p] \/ l = [p; g] \/ l = [p; g; p] \/ l = [p; g; p; h]).
Proof.
  intros Hargs Hcli Hdec Hsel p g h.
  unfold runQuit. rewrite Hargs, Hcli, (decommission_passes inp Hdec), Hsel.
  pose proof (doShutdown_sent IsClosedConnection (map int32_of_DrainMode GracefulDrainModes) k) as Hs1. cbn zeta in Hs1.
  pose proof (doShutdown_tryhard_sent (map int32_of_DrainMode GracefulDrainModes) k) as Hth.
  destruct (doShutdown IsClosedConnection (map int32_of_DrainMode GracefulDrainModes) k) as [r k1]. cbn [fst snd] in *.
  destruct r as [err|].
  - destruct (is_errTryHardShutdown err) eqn:Et.
    + specialize (Hth err eq_refl Et).
      unfold hardShutdown.
      pose proof (doShutdown_sent IsClosedConnection [] k1) as Hs2. cbn zeta in Hs2.
      destruct (doShutdown IsClosedConnection [] k1) as [r2 k2]. cbn [fst snd] in *.
      destruct Hs2 as [Hs2|Hs2]; rewrite Hs2, Hth, <- app_assoc; eexists;
        (split; [reflexivity|]); cbn; auto.
    + cbn. destruct Hs1 as [Hs1|Hs1]; rewrite Hs1; eexists;
        (split; [reflexivity|]); auto.
  - cbn. destruct Hs1 as [Hs1|Hs1]; rewrite Hs1; eexists;
      (split; [reflexivity|]); auto.
Qed.

End QuitFacts.

(** * Properties of the size flags and of the default log directory *)

Section SizeFlagFacts.
Import SizeFlags.

Lemma percentOf_bounds total percent :
  0 <= total -> 0 <= percent <= 99 -> total * percent <= MaxInt64 ->
  let v := percentOf total percent in
  0 <= v <= total /\ 100 * v <= total * percent < 100 * (v + 1).
Proof.
  intros Ht Hp Hfit v. subst v. unfold percentOf, MaxInt64 in *.
  assert (Hprod : 0 <= total * percent) by nia.
  rewrite int64_small by lia.
  rewrite Z.quot_div_nonneg by lia.
  pose proof (Z.mul_div_le (total * percent) 100 ltac:(lia)) as Hlo.
  pose proof (Z.mul_succ_div_gt (total * percent) 100 ltac:(lia)) as Hhi.
  pose proof (Z.div_pos (total * percent) 100 Hprod ltac:(lia)) as Hnn.
  repeat split; try lia.
  assert (total * percent / 100 <= total * 100 / 100).
  { apply Z.div_le_mono; nia. }
  rewrite Z.div_mul in *; lia.
Qed.

(** X17.  [diskPercentResolverFactory] refuses a device of more than
    [math.MaxInt64] bytes.  Otherwise its resolver, and likewise
    [memoryPercentResolver] on the total memory, gives for a percentage
    from 0 to 99 whose product with the total fits an int64 the
    percentage of the total rounded down: a value from 0 to the total. *)
Theorem percent_resolvers_stay_within_total
    (humanize_IBytes humanizeutil_IBytes : Z -> string) total :
  0 <= total ->
  (MaxInt64 < total ->
   exists err,
     diskPercentResolverFactory humanize_IBytes humanizeutil_IBytes None total
     = (None, Some err)) /\
  (total <= MaxInt64 ->
   exists resolve,
     diskPercentResolverFactory humanize_IBytes humanizeutil_IBytes None total
     = (Some resolve, None) /\
     forall percent,
       0 <= percent <= 99 -> total * percent <= MaxInt64 ->
       exists v,
         resolve percent = (v, None) /\
         memoryPercentResolver (total, None) percent = (v, None) /\
         0 <= v <= total /\ 100 * v <= total * percent < 100 * (v + 1)).
Proof.
  intros Ht. unfold diskPercentResolverFactory. split; intros Hcmp.
  - replace (MaxInt64 <? total) with true by (symmetry; apply Z.ltb_lt; exact Hcmp).
    eexists; reflexivity.
  - replace (MaxInt64 <? total) with false by (symmetry; apply Z.ltb_ge; exact Hcmp).
    eexists. split; [reflexivity|].
    intros percent Hp Hfit. eexists. split; [reflexivity|].
    unfold MaxInt64 in Hcmp. rewrite int64_small by lia.
    split; [reflexivity|].
    apply percentOf_bounds; assumption.
Qed.

Variables Var BV : Type.
Variable NewBytesValue : Var -> BV.
Variable bval_Set : string -> BV -> option error * BV.
Variable strconv_Atoi : string -> Z * option error.
Variable new_int64 : Var.

Lemma Set_records_origVal s (b : bytesOrPercentageValue Var BV) :
  origVal Var BV (snd (Set_ Var BV bval_Set strconv_Atoi s b)) = s.
Proof.
  unfold Set_, bvalSet.
  destruct (HasSuffix s "%").
  - destruct (strconv_Atoi _) as [percent [err|]]; [reflexivity|].
    destruct (_ || _); [reflexivity|].
    cbn. destruct (percentResolver Var BV b) as [resolve|]; [|reflexivity].
    destruct (resolve percent) as [absVal [err|]]; [reflexivity|].
    cbn. destruct (bval_Set _ _); reflexivity.
  - cbn. destruct (bval_Set _ _); reflexivity.
Qed.

(** X18.  [Set] consults the resolver on percentages from 0 to 99 only:
    two resolvers that agree there give the same error and leave the
    same value behind, whatever the input. *)
Theorem Set_asks_the_resolver_within_range s (b : bytesOrPercentageValue Var BV)
    (r r' : percentResolverFunc) :
  (forall percent, 0 <= percent <= 99 -> r percent = r' percent) ->
  let with_resolver f :=
    {| val := val Var BV b; bval := bval Var BV b; origVal := origVal Var BV b;
       percentResolver := Some f |} in
  let res := Set_ Var BV bval_Set strconv_Atoi s (with_resolver r) in
  let res' := Set_ Var BV bval_Set strconv_Atoi s (with_resolver r') in
  fst res = fst res' /\
  bval Var BV (snd res) = bval Var BV (snd res') /\
  origVal Var BV (snd res) = origVal Var BV (snd res').
Proof.
  intros Hagree with_resolver res res'. subst res res' with_resolver.
  unfold Set_, bvalSet. cbn.
  destruct (HasSuffix s "%").
  - destruct (strconv_Atoi _) as [percent [err|]]; [auto|].
    destruct ((percent <? 0) || (99 <? percent)) eqn:Erange; [auto|].
    apply orb_false_iff in Erange as [Hlo Hhi].
    apply Z.ltb_ge in Hlo. apply Z.ltb_ge in Hhi.
    rewrite (Hagree percent) by lia.
    destruct (r' percent) as [absVal [err|]]; [auto|].
    destruct (bval_Set _ _); auto.
  - destruct (bval_Set _ _); auto.
Qed.

(** X19.  [Resolve] does nothing for a flag that was never set.  For a
    flag set to a non-empty string, before any resolver was known and
    whatever [Set] returned then, [Resolve] gives what [Set] of the same
    string gives on a fresh value bound to the new variable and
    resolver: resolving late equals parsing with the resolver at
    hand. *)
Theorem Resolve_replays_the_flag v r s (b0 : bytesOrPercentageValue Var BV) :
  s <> "" ->
  Resolve Var BV NewBytesValue bval_Set strconv_Atoi v r
    (newBytesOrPercentageValue Var BV NewBytesValue new_int64 None None)
  = (None, newBytesOrPercentageValue Var BV NewBytesValue new_int64 None None) /\
  Resolve Var BV NewBytesValue bval_Set strconv_Atoi v r
    (snd (Set_ Var BV bval_Set strconv_Atoi s b0))
  = Set_ Var BV bval_Set strconv_Atoi s
      (newBytesOrPercentageValue Var BV NewBytesValue new_int64 (Some v) r).
Proof.
  intros Hs. split; [reflexivity|].
  unfold Resolve. rewrite Set_records_origVal.
  destruct (String.eqb s "") eqn:E; [apply String.eqb_eq in E; contradiction|].
  reflexivity.
Qed.

End SizeFlagFacts.

Section LogDirFacts.
Import LogDir.
Variable filepath_Join : string -> string -> string.

Lemma logDirLoop_chosen specs d :
  d <> "" ->
  logDirLoop filepath_Join specs d =
    (d, match filter onDisk specs with [] => false | _ :: _ => true end).
Proof.
  intros Hd. induction specs as [|spec rest IH]; [reflexivity|].
  cbn [logDirLoop filter]. unfold onDisk at 1.
  destruct (InMemory spec); cbn [negb]; [exact IH|].
  destruct (String.eqb d "") eqn:E; [apply String.eqb_eq in E; contradiction|].
  reflexivity.
Qed.

(** X20.  With [filepath.Join] never giving the empty path, the default
    log directory is the "logs" directory of the first store that is not
    in memory, and empty when all stores are in memory; the choice is
    flagged as ambiguous exactly when two or more stores are not in
    memory. *)
Theorem default_log_dir_is_first_store_on_disk specs :
  (forall p, filepath_Join p "logs" <> "") ->
  defaultLogDir filepath_Join specs =
    match filter onDisk specs with
    | [] => ("", false)
    | first :: others =>
        (filepath_Join (Path first) "logs",
         match others with [] => false | _ :: _ => true end)
    end.
Proof.
  intros Hjoin. unfold defaultLogDir.
  induction specs as [|spec rest IH]; [reflexivity|].
  cbn [logDirLoop filter]. unfold onDisk at 1.
  destruct (InMemory spec); cbn [negb]; [exact IH|].
  cbn. apply logDirLoop_chosen. apply Hjoin.
Qed.

End LogDirFacts.

(** * The further properties at concrete inputs *)

Section MoreWitnesses.
Import Orchestrator DrainClient Samples MoreSamples.

(** With a limit of 60 bytes the oldest memory profile is removed. *)
Lemma gcProfiles_only_counted_witness :
  In "/logs/memprof.2017-10-01T10_00_00.000"
     (Profiles.gcProfiles join (inl listing) "/logs" "memprof." 60) /\
  exists files f,
    @inl _ error listing = inl files /\ In f files /\
    Profiles.IsRegular f = true /\
    String.prefix "memprof." (Profiles.Name f) = true /\
    "/logs/memprof.2017-10-01T10_00_00.000" = join "/logs" (Profiles.Name f).
Proof.
  assert (Hin : In "/logs/memprof.2017-10-01T10_00_00.000"
                   (Profiles.gcProfiles join (inl listing) "/logs" "memprof." 60))
    by (vm_compute; auto).
  split; [exact Hin|].
  exact (gcProfiles_only_counted "memprof." 60 join (inl listing) "/logs" _ Hin).
Defined.

(** With a limit of 0 bytes the newest memory profile is still kept. *)
Lemma gcProfiles_keeps_newest_witness :
  Forall (fun v => In v (firstn 3 listing))
    (Profiles.gcVictims (inl listing) "memprof." 0).
Proof.
  apply Forall_forall.
  refine (proj1 (gcProfiles_keeps_newest "memprof." 0 (firstn 3 listing)
                   (nth 3 listing oldest_memprof) (skipn 4 listing) eq_refl _)).
  intros g [<-|[]]. reflexivity.
Defined.

Lemma listing_sizes :
  forall f, In f listing -> Profiles.counted "memprof." f = true ->
            0 <= Profiles.Size f.
Proof.
  intros f Hf _. cbn in Hf.
  repeat (destruct Hf as [<-|Hf]; [cbn; lia|]). destruct Hf.
Defined.

(** With a limit of 90 bytes the two newest memory profiles are kept and
    the oldest is removed. *)
Lemma gcProfiles_removes_oldest_witness :
  exists kept,
    filter (Profiles.counted "memprof.") (rev listing) =
      (kept ++ Profiles.gcVictims (inl listing) "memprof." 90)%list /\
    ((List.length kept <= 1)%nat \/ Profiles.totalSize kept <= 90).
Proof.
  destruct (gcProfiles_removes_oldest "memprof." 90 listing listing_sizes
              ltac:(vm_compute; reflexivity) ltac:(vm_compute; reflexivity))
    as (kept & H1 & H2 & _).
  exists kept. split; assumption.
Defined.

(** With a limit of 120 bytes nothing is removed. *)
Lemma gcProfiles_within_limit_witness :
  Profiles.gcProfiles join (inl listing) "/logs" "memprof." 120 = [].
Proof.
  apply (gcProfiles_within_limit "memprof." 120 join listing "/logs" listing_sizes);
    vm_compute; (reflexivity || discriminate).
Defined.

(** Three passes: a profile started, a file that cannot be created, a
    profile that cannot be started. *)
Lemma cpu_profile_loop_holds_one_file_witness :
  Profiles.doubleStarts
    (Profiles.iterations
       [ {| Profiles.create_ok := true; Profiles.start_ok := true |};
         {| Profiles.create_ok := false; Profiles.start_ok := true |};
         {| Profiles.create_ok := true; Profiles.start_ok := false |} ]
       Profiles.cpu_init) = 0%nat.
Proof.
  apply (cpu_profile_loop_holds_one_file
           [ {| Profiles.create_ok := true; Profiles.start_ok := true |};
             {| Profiles.create_ok := false; Profiles.start_ok := true |};
             {| Profiles.create_ok := true; Profiles.start_ok := false |} ]).
Defined.

(** The drained run: the one drain call came after the start. *)
Lemma drain_only_after_start_witness :
  exists st,
    run cfg (graceful SIGTERM) init = Some st /\
    (drainCalls st = [] \/
     (drainCalls st = [GracefulDrainModes cfg] /\
      started st = true /\ startCalls st = 1%nat /\ stopWithoutDrain st = false)).
Proof.
  eexists. split; [vm_compute; reflexivity|].
  apply (drain_only_after_start cfg (graceful SIGTERM)). vm_compute. reflexivity.
Defined.

(** The node cannot be initialised: the error is returned, nothing is
    drained. *)
Lemma startup_error_is_returned_undrained_witness :
  exists st st1 st2 err,
    run cfg init_fails init = Some st /\
    step cfg (Main E_RecvErrChan) st = Some st1 /\
    run cfg [Env (E_Signal SIGTERM)] st1 = Some st2 /\
    mpc st2 = M_Ret (Some err) /\ drainCalls st2 = [].
Proof.
  do 3 eexists.
  destruct (startup_error_is_returned_undrained cfg init_fails _ _
              [Env (E_Signal SIGTERM)] _
              ltac:(vm_compute; reflexivity) ltac:(vm_compute; reflexivity)
              ltac:(vm_compute; reflexivity))
    as (err & _ & _ & Hm & _ & Hd & _).
  exists err. repeat split; try (vm_compute; reflexivity); assumption.
Defined.

(** The quit endpoint stops the server: nil once the stopper has
    stopped. *)
Lemma external_stop_returns_nil_witness :
  exists st st1 st2,
    run cfg stopped_from_outside init = Some st /\
    step cfg (Main E_RecvShouldStop) st = Some st1 /\
    run cfg [Env E_Quiesced; Main E_RecvIsStopped] st1 = Some st2 /\
    mpc st2 = M_Ret None /\ drainCalls st2 = [].
Proof.
  do 3 eexists.
  split; [vm_compute; reflexivity|].
  split; [vm_compute; reflexivity|].
  split; [vm_compute; reflexivity|].
  split; [reflexivity|].
  apply (external_stop_returns_nil cfg stopped_from_outside _ _
           [Env E_Quiesced; Main E_RecvIsStopped] _
           ltac:(vm_compute; reflexivity) ltac:(vm_compute; reflexivity)
           ltac:(vm_compute; reflexivity)).
Defined.

(** The failing [s.Start] finds [errChan] empty. *)
Lemma errChan_send_never_blocks_witness :
  exists st st',
    run cfg before_start init = Some st /\
    step cfg (Bg (E_Start (Some port_in_use))) st = Some st' /\
    errChan st = None.
Proof.
  do 2 eexists.
  split; [vm_compute; reflexivity|].
  split; [vm_compute; reflexivity|].
  apply (errChan_send_never_blocks cfg before_start _ (E_Start (Some port_in_use)) _
           ltac:(vm_compute; reflexivity) ltac:(vm_compute; reflexivity)).
Defined.

(** The server port is in use: the error names --port. *)
Lemma listen_error_names_the_flag_witness :
  exists st st1 st3 err,
    run cfg before_start init = Some st /\
    step cfg (Bg (E_Start (Some port_in_use))) st = Some st1 /\
    step cfg (Main E_RecvErrChan) st1 = Some st3 /\
    mpc st3 = M_Ret (Some err) /\
    Error err =
      "cockroach server exited with error: consider changing the port via --port: listen tcp :26257: bind: address already in use".
Proof.
  do 3 eexists.
  destruct (listen_error_names_the_flag cfg before_start _ ":26257"
              "listen tcp :26257: bind: address already in use" _ [] _ _
              ltac:(vm_compute; reflexivity) ltac:(vm_compute; reflexivity)
              ltac:(vm_compute; reflexivity) ltac:(vm_compute; reflexivity))
    as (err & Hm & He).
  exists err. repeat split; try (vm_compute; reflexivity); assumption.
Defined.

(** SIGTERM, then SIGINT during the drain: the forced exit. *)
Lemma decisions_after_a_signal_witness :
  exists st st1 st2 r,
    run cfg (up_and_signalled SIGTERM) init = Some st /\
    step cfg (Main E_RecvSignal) st = Some st1 /\
    run cfg [Main E_BeginWait; Env (E_Signal SIGINT); Main E_RecvSignal] st1
      = Some st2 /\
    mpc st2 = M_Ret r /\
    (r = None \/ (exists sig', r = Some (signalDuringShutdown cfg sig')) \/
     r = Some (timeLimitReached)).
Proof.
  do 4 eexists.
  split; [vm_compute; reflexivity|].
  split; [vm_compute; reflexivity|].
  split; [vm_compute; reflexivity|].
  split; [reflexivity|].
  apply (decisions_after_a_signal cfg (up_and_signalled SIGTERM) _ SIGTERM _
           [Main E_BeginWait; Env (E_Signal SIGINT); Main E_RecvSignal] _ _
           ltac:(vm_compute; reflexivity) eq_refl eq_refl
           ltac:(vm_compute; reflexivity) ltac:(vm_compute; reflexivity) eq_refl).
Defined.

(** Nobody listens: [runQuit] gives up after the probe. *)
Lemma unreachable_node_is_not_retried_witness :
  runQuit closed modes quit_input in_time (connect []) =
    (Some (errWrap (extErr "connection refused")
             "Failed to connect to the node: error sending drain request"),
     [],
     {| client := []; sent := [probeRequest]; warnings := [] |}).
Proof.
  apply (unreachable_node_is_not_retried closed modes quit_input in_time (connect [])
           (extErr "connection refused") []
           eq_refl eq_refl (fun _ => eq_refl) eq_refl eq_refl).
Defined.

(** The probe passes and the drain request cannot be sent. *)
Lemma drain_call_failure_is_final_witness :
  fst (fst (runQuit closed modes quit_input in_time
              (connect [ends_with io_EOF; CallFails (extErr "deadline exceeded")])))
  = Some (errWrap (extErr "deadline exceeded") "Error sending drain request").
Proof.
  apply (drain_call_failure_is_final closed modes quit_input in_time
           (connect [ends_with io_EOF; CallFails (extErr "deadline exceeded")])
           {| responses := [ack]; terminal := io_EOF |}
           [CallFails (extErr "deadline exceeded")]
           (extErr "deadline exceeded") []
           eq_refl eq_refl (fun _ => eq_refl) eq_refl eq_refl eq_refl).
Defined.

(** The node drains and drops the connection: "ok". *)
Lemma quit_prints_ok_iff_nil_witness :
  exists out',
    snd (fst (runQuit closed modes quit_input in_time
                (connect [ends_with io_EOF; ends_with io_EOF])))
    = (out' ++ ["ok"])%list.
Proof.
  apply (proj1 (quit_prints_ok_iff_nil closed modes quit_input in_time
                  (connect [ends_with io_EOF; ends_with io_EOF]))).
  reflexivity.
Defined.

(** The drain stream breaks and the hard shutdown goes through. *)
Lemma requests_of_a_timely_quit_witness :
  exists l,
    sent (snd (runQuit closed modes quit_input in_time
                 (connect [ends_with io_EOF; ends_with (extErr "reset");
                           ends_with io_EOF; ends_with io_EOF])))
    = ([] ++ l)%list /\
    (l = [probeRequest] \/ l = [probeRequest; shutdownRequest [0; 1]] \/
     l = [probeRequest; shutdownRequest [0; 1]; probeRequest] \/
     l = [probeRequest; shutdownRequest [0; 1]; probeRequest; shutdownRequest []]).
Proof.
  apply (requests_of_a_timely_quit closed modes quit_input in_time
           (connect [ends_with io_EOF; ends_with (extErr "reset");
                     ends_with io_EOF; ends_with io_EOF])
           eq_refl eq_refl (fun _ => eq_refl) eq_refl).
Defined.

(** Thirty percent of a terabyte. *)
Lemma percent_resolvers_stay_within_total_witness :
  exists resolve,
    SizeFlags.diskPercentResolverFactory (fun _ => "") (fun _ => "") None
      1000000000000 = (Some resolve, None) /\
    resolve 30 = (300000000000, None).
Proof.
  destruct (proj2 (percent_resolvers_stay_within_total (fun _ => "") (fun _ => "")
                     1000000000000 ltac:(lia))
              ltac:(vm_compute; discriminate))
    as (resolve & Hf & Hr).
  exists resolve. split; [exact Hf|].
  destruct (Hr 30 ltac:(lia) ltac:(vm_compute; discriminate))
    as (v & Hv & _ & _ & Hlo & Hhi).
  rewrite Hv. f_equal. lia.
Defined.

Lemma resolvers_agree :
  forall percent, 0 <= percent <= 99 -> of_1000 percent = of_1000_checked percent.
Proof.
  intros percent Hp. unfold of_1000, of_1000_checked.
  replace (percent <? 0) with false by (symmetry; apply Z.ltb_ge; lia).
  replace (99 <? percent) with false by (symmetry; apply Z.ltb_ge; lia).
  reflexivity.
Defined.

(** "250%" is refused the same way with either resolver. *)
Lemma Set_asks_the_resolver_within_range_witness :
  fst (SizeFlags.Set_ unit (Z * bool) plain_Set parse "250%"
         {| SizeFlags.val := tt; SizeFlags.bval := (0, false);
            SizeFlags.origVal := ""; SizeFlags.percentResolver := Some of_1000 |})
  = fst (SizeFlags.Set_ unit (Z * bool) plain_Set parse "250%"
           {| SizeFlags.val := tt; SizeFlags.bval := (0, false);
              SizeFlags.origVal := "";
              SizeFlags.percentResolver := Some of_1000_checked |}).
Proof.
  apply (Set_asks_the_resolver_within_range unit (Z * bool) plain_Set parse "250%"
           unset_flag of_1000 of_1000_checked resolvers_agree).
Defined.

(** "10%" given before the store is known, resolved against it later. *)
Lemma Resolve_replays_the_flag_witness :
  SizeFlags.Resolve unit (Z * bool) (fun _ => (0, false)) plain_Set parse tt
    (Some of_1000)
    (snd (SizeFlags.Set_ unit (Z * bool) plain_Set parse "10%" unset_flag))
  = SizeFlags.Set_ unit (Z * bool) plain_Set parse "10%"
      (SizeFlags.newBytesOrPercentageValue unit (Z * bool) (fun _ => (0, false)) tt
         (Some tt) (Some of_1000)).
Proof.
  apply (Resolve_replays_the_flag unit (Z * bool) (fun _ => (0, false)) plain_Set
           parse tt tt (Some of_1000) "10%" unset_flag).
  discriminate.
Defined.

Lemma join_not_empty : forall p, join p "logs" <> "".
Proof. intros p; destruct p; discriminate. Defined.

(** One store in memory and two on disk: the first on disk, ambiguous. *)
Lemma default_log_dir_is_first_store_on_disk_witness :
  LogDir.defaultLogDir join stores = ("/mnt/ssd1/logs", true).
Proof.
  apply (default_log_dir_is_first_store_on_disk join stores join_not_empty).
Defined.

End MoreWitnesses.
